(** * Storage network requests: resumable upload request builders

    A shallow embedding of the storage client's [implementation/requests.ts]
    (request builders, response handlers and error handlers of the resumable
    upload protocol), with the properties of its specification stated and
    proved over the embedding.

    Conventions.
    - A JavaScript [number] is a [Z]: byte counts and HTTP status codes are
      integers far below 2^53, where IEEE doubles are exact.
    - [x | null] and optional parameters are [option].
    - [throw] is the left summand of the result carried by the [Eff] monad,
      which also logs every call made to the byte source, so that "thrown
      before the blob is sliced" is a statement about the log.
    - A template literal applied to a number is stdpp's decimal [pretty]. *)

From Stdlib Require Import ZArith Ascii String List Lia.
From stdpp Require Import base option list gmap strings pretty.

Local Open Scope string_scope.
Local Open Scope Z_scope.

(** ** Errors ([implementation/error.ts]) *)

(** Modelled from the spec: the error kinds of section 7
    ([implementation/error.ts] is not among the sources), one for each
    constructor that [requests.ts] imports, with the argument the constructor
    is called with; [OtherError] stands for every other code an incoming error
    may carry (canceled, retry-limit-exceeded, ...). *)
Inductive StorageErrorCode : Type :=
  | UNKNOWN
  | OBJECT_NOT_FOUND (path : string)
  | QUOTA_EXCEEDED (bucket : string)
  | UNAUTHENTICATED
  | UNAUTHORIZED_APP
  | UNAUTHORIZED (path : string)
  | CANNOT_SLICE_BLOB
  | SERVER_FILE_WRONG_SIZE
  | OtherError (code : string).

Record StorageError : Type := mkStorageError {
  code : StorageErrorCode;
  serverResponse : option string
}.

Definition fresh_error (c : StorageErrorCode) : StorageError :=
  {| code := c; serverResponse := None |}.

Definition unknown : StorageError := fresh_error UNKNOWN.
Definition objectNotFound (path : string) : StorageError := fresh_error (OBJECT_NOT_FOUND path).
Definition quotaExceeded (bucket : string) : StorageError := fresh_error (QUOTA_EXCEEDED bucket).
Definition unauthenticated : StorageError := fresh_error UNAUTHENTICATED.
Definition unauthorizedApp : StorageError := fresh_error UNAUTHORIZED_APP.
Definition unauthorized (path : string) : StorageError := fresh_error (UNAUTHORIZED path).
Definition cannotSliceBlob : StorageError := fresh_error CANNOT_SLICE_BLOB.
Definition serverFileWrongSize : StorageError := fresh_error SERVER_FILE_WRONG_SIZE.

(** [newErr.serverResponse = r] *)
Definition set_serverResponse (e : StorageError) (r : option string) : StorageError :=
  {| code := code e; serverResponse := r |}.

(** ** JavaScript helpers *)

(** [hay.includes(needle)] *)
Fixpoint includes (hay needle : string) : bool :=
  String.prefix needle hay ||
  match hay with
  | EmptyString => false
  | String _ rest => includes rest needle
  end.

(** [!!s] for [s : string | null]: null and the empty string are falsy. *)
Definition truthy (s : option string) : bool :=
  match s with
  | Some EmptyString | None => false
  | Some _ => true
  end.

(** [s || d] for [s : string | null] and a string [d]. *)
Definition js_or (s : option string) (d : string) : string :=
  match s with
  | Some v => if truthy s then v else d
  | None => d
  end.

(** [Number(s)] on a header value. [None] is NaN. The built-in is a
    parameter: nothing is assumed about what it makes of a string. *)
Class JsBuiltins : Type := {
  Number_ : string -> option Z
}.

(** ** Connection ([implementation/connection.ts]) *)

(** The three methods of a [Connection] that [requests.ts] calls (the
    interface is declared outside the sources). [getResponseHeader] is called
    under try/catch, so a lookup either throws or returns a string or null. *)
Inductive HeaderLookup : Type :=
  | HeaderThrows
  | HeaderIs (value : option string).

Record Connection : Type := mkConnection {
  getStatus : Z;
  getResponseText : string;
  getResponseHeader : string -> HeaderLookup
}.

(** ** Location, service, metadata

    The properties that [requests.ts] reads of a [Location] and of the
    storage service; both are declared outside the sources. *)

Record Location : Type := mkLocation {
  bucket : string;
  path : string
}.

Record FirebaseStorageImpl : Type := mkService {
  host : string;
  _protocol : string;
  maxUploadRetryTime : Z;
  maxOperationRetryTime : Z
}.

(** The properties of [Metadata] that [requests.ts] reads or writes, and the
    remaining ones as a map that is carried along. *)
Record Metadata : Type := mkMetadata {
  md_fullPath : option string;
  md_size : option Z;
  md_contentType : option string;
  md_rest : gmap string string
}.

(** [{}] *)
Definition empty_metadata : Metadata :=
  {| md_fullPath := None; md_size := None; md_contentType := None; md_rest := ∅ |}.

(** Modelled from the spec: the ByteSource of section 4.1 ("a sliceable, sized
    binary payload"); [implementation/blob.ts] is not among the sources. The
    operations are the ones [requests.ts] calls; the two laws say that a size
    is a byte count and that a slice inside the payload is the requested
    range. *)
Class FbsBlobApi : Type := {
  FbsBlob : Type;
  UploadData : Type;
  blob_size : FbsBlob -> Z;
  blob_type : FbsBlob -> string;
  blob_slice : FbsBlob -> Z -> Z -> option FbsBlob;
  getBlob : string -> FbsBlob -> string -> option FbsBlob;
  uploadData : FbsBlob -> UploadData;
  dataLength : UploadData -> Z;
  blob_size_nonneg : forall b, 0 <= blob_size b;
  blob_slice_size : forall b s e b',
    0 <= s <= e -> e <= blob_size b ->
    blob_slice b s e = Some b' -> blob_size b' = e - s;
  uploadData_length : forall b, dataLength (uploadData b) = blob_size b
}.

(** The metadata (de)serializer of [implementation/metadata.ts], a
    collaborator independent of the upload protocol. *)
Class MetadataCodec : Type := {
  Mappings : Type;
  toResourceString : Metadata -> Mappings -> string;
  fromResourceString : FirebaseStorageImpl -> string -> Mappings -> option Metadata
}.

(** URL construction ([implementation/url.ts], [implementation/location.ts]). *)
Class UrlApi : Type := {
  makeUrl : string -> string -> string -> string;
  bucketOnlyServerUrl : Location -> string;
  fullServerUrl : Location -> string
}.

Section Requests.
Context `{!FbsBlobApi, !MetadataCodec, !UrlApi, !JsBuiltins}.

(** *** The effect monad *)

(** A call made to the byte source. *)
Inductive BlobCall : Type :=
  | SliceCall (b : FbsBlob) (startByte endByte : Z)
  | GetBlobCall (pre : string) (b : FbsBlob) (post : string).

(** A computation logs its calls to the byte source and either throws a
    [StorageError] or returns. *)
Definition Eff (A : Type) : Type := list BlobCall * (StorageError + A).

Definition ret {A} (a : A) : Eff A := ([], inr a).

Definition throw {A} (e : StorageError) : Eff A := ([], inl e).

Definition bind {A B} (m : Eff A) (f : A -> Eff B) : Eff B :=
  match m with
  | (log, inl e) => (log, inl e)
  | (log, inr a) => let '(log', r) := f a in ((log ++ log')%list, r)
  end.

Notation "'let*' x ':=' m 'in' k" := (bind m (fun x => k))
  (at level 10, x name, m at level 200, k at level 200, only parsing).

(** [b.slice(startByte, endByte)] *)
Definition call_slice (b : FbsBlob) (startByte endByte : Z) : Eff (option FbsBlob) :=
  ([SliceCall b startByte endByte], inr (blob_slice b startByte endByte)).

(** [FbsBlob.getBlob(pre, b, post)] *)
Definition call_getBlob (pre : string) (b : FbsBlob) (post : string) : Eff (option FbsBlob) :=
  ([GetBlobCall pre b post], inr (getBlob pre b post)).

Definition calls {A} (m : Eff A) : list BlobCall := fst m.

Definition outcome {A} (m : Eff A) : StorageError + A := snd m.

(** *** Request descriptors *)

Inductive Body : Type :=
  | BodyString (s : string)
  | BodyData (d : UploadData).

(** Bytes of payload of a binary body. *)
Definition payloadBytes (b : option Body) : option Z :=
  match b with
  | Some (BodyData d) => Some (dataLength d)
  | _ => None
  end.

(** Modelled from the spec: the RequestDescriptor of section 3
    ([implementation/requestinfo.ts] is not among the sources). URL, method,
    handler and timeout are given to the constructor; the other properties
    start empty or null and are assigned by the builders. *)
Record RequestInfo (T : Type) : Type := mkRequestInfo {
  url : string;
  method : string;
  handler : Connection -> string -> Eff T;
  timeout : Z;
  urlParams : gmap string string;
  headers : gmap string string;
  body : option Body;
  errorHandler : option (Connection -> StorageError -> StorageError);
  progressCallback : option (Z -> Z -> unit)
}.
#[global] Arguments mkRequestInfo {T}.
#[global] Arguments url {T}.
#[global] Arguments method {T}.
#[global] Arguments handler {T}.
#[global] Arguments timeout {T}.
#[global] Arguments urlParams {T}.
#[global] Arguments headers {T}.
#[global] Arguments body {T}.
#[global] Arguments errorHandler {T}.
#[global] Arguments progressCallback {T}.

(** [new RequestInfo(url, method, handler, timeout)] *)
Definition new_RequestInfo {T} (url method : string)
    (handler : Connection -> string -> Eff T) (timeout : Z) : RequestInfo T :=
  {| url := url; method := method; handler := handler; timeout := timeout;
     urlParams := ∅; headers := ∅; body := None; errorHandler := None;
     progressCallback := None |}.

Definition set_urlParams {T} (r : RequestInfo T) (v : gmap string string) : RequestInfo T :=
  mkRequestInfo (url r) (method r) (handler r) (timeout r) v (headers r) (body r)
    (errorHandler r) (progressCallback r).

Definition set_headers {T} (r : RequestInfo T) (v : gmap string string) : RequestInfo T :=
  mkRequestInfo (url r) (method r) (handler r) (timeout r) (urlParams r) v (body r)
    (errorHandler r) (progressCallback r).

Definition set_body {T} (r : RequestInfo T) (v : option Body) : RequestInfo T :=
  mkRequestInfo (url r) (method r) (handler r) (timeout r) (urlParams r) (headers r) v
    (errorHandler r) (progressCallback r).

Definition set_errorHandler {T} (r : RequestInfo T)
    (v : option (Connection -> StorageError -> StorageError)) : RequestInfo T :=
  mkRequestInfo (url r) (method r) (handler r) (timeout r) (urlParams r) (headers r) (body r)
    v (progressCallback r).

Definition set_progressCallback {T} (r : RequestInfo T)
    (v : option (Z -> Z -> unit)) : RequestInfo T :=
  mkRequestInfo (url r) (method r) (handler r) (timeout r) (urlParams r) (headers r) (body r)
    (errorHandler r) v.

(** *** Response handlers *)

(** Throws the UNKNOWN StorageError if cndn is false. *)
Definition handlerCheck (cndn : bool) : Eff unit :=
  if negb cndn then throw unknown else ret tt.

Definition metadataHandler (service : FirebaseStorageImpl) (mappings : Mappings)
    (xhr : Connection) (text : string) : Eff Metadata :=
  let metadata := fromResourceString service text mappings in
  match metadata with
  | Some m => let* _ := handlerCheck true in ret m
  | None => let* _ := handlerCheck false in ret empty_metadata
  end.

(** *** Error handlers *)

Definition sharedErrorHandler (location : Location)
    (xhr : Connection) (err : StorageError) : StorageError :=
  let newErr :=
    if getStatus xhr =? 401 then
      if includes (getResponseText xhr) "Firebase App Check token is invalid"
      then unauthorizedApp
      else unauthenticated
    else if getStatus xhr =? 402 then quotaExceeded (bucket location)
    else if getStatus xhr =? 403 then unauthorized (path location)
    else err in
  set_serverResponse newErr (serverResponse err).

Definition objectErrorHandler (location : Location)
    (xhr : Connection) (err : StorageError) : StorageError :=
  let shared := sharedErrorHandler location in
  let newErr := shared xhr err in
  let newErr := if getStatus xhr =? 404 then objectNotFound (path location) else newErr in
  set_serverResponse newErr (serverResponse err).

Definition getMetadata (service : FirebaseStorageImpl) (location : Location)
    (mappings : Mappings) : RequestInfo Metadata :=
  let urlPart := fullServerUrl location in
  let url := makeUrl urlPart (host service) (_protocol service) in
  let method := "GET" in
  let timeout := maxOperationRetryTime service in
  let requestInfo := new_RequestInfo url method (metadataHandler service mappings) timeout in
  set_errorHandler requestInfo (Some (objectErrorHandler location)).

(** *** Upload metadata *)

Definition determineContentType_ (metadata : option Metadata) (blob : option FbsBlob) : string :=
  js_or (metadata ≫= md_contentType)
    (js_or (blob_type <$> blob)
       "application/octet-stream").

Definition metadataForUpload_ (location : Location) (blob : FbsBlob)
    (metadata : option Metadata) : Metadata :=
  let metadataClone := default empty_metadata metadata in
  let metadataClone :=
    mkMetadata (Some (path location)) (md_size metadataClone)
      (md_contentType metadataClone) (md_rest metadataClone) in
  let metadataClone :=
    mkMetadata (md_fullPath metadataClone) (Some (blob_size blob))
      (md_contentType metadataClone) (md_rest metadataClone) in
  if negb (truthy (md_contentType metadataClone)) then
    mkMetadata (md_fullPath metadataClone) (md_size metadataClone)
      (Some (determineContentType_ None (Some blob))) (md_rest metadataClone)
  else metadataClone.

(** [s.slice(n)] on a string, for [n] within the string or beyond it. *)
Fixpoint str_slice_from (n : nat) (s : string) : string :=
  match n, s with
  | O, _ => s
  | S n', String _ rest => str_slice_from n' rest
  | S _, EmptyString => EmptyString
  end.

Definition CRLF : string := String (Ascii.ascii_of_nat 13) (String (Ascii.ascii_of_nat 10) EmptyString).

(** The boundary generator of [multipartUpload]; [random i] is the string
    rendering of the [i]-th draw of [Math.random()]. *)
Definition genBoundary (random : nat -> string) : string :=
  let str := "" in
  let str := str +:+ str_slice_from 2 (random 0%nat) in
  let str := str +:+ str_slice_from 2 (random 1%nat) in
  str.

(** Prepare RequestInfo for uploads as Content-Type: multipart. *)
Definition multipartUpload (random : nat -> string)
    (service : FirebaseStorageImpl) (location : Location) (mappings : Mappings)
    (blob : FbsBlob) (metadata : option Metadata) : Eff (RequestInfo Metadata) :=
  let urlPart := bucketOnlyServerUrl location in
  let headers : gmap string string := {[ "X-Goog-Upload-Protocol" := "multipart" ]} in
  let boundary := genBoundary random in
  let headers := <[ "Content-Type" := "multipart/related; boundary=" +:+ boundary ]> headers in
  let metadata_ := metadataForUpload_ location blob metadata in
  let metadataString := toResourceString metadata_ mappings in
  let preBlobPart :=
    "--" +:+ boundary +:+ CRLF +:+
    "Content-Type: application/json; charset=utf-8" +:+ CRLF +:+ CRLF +:+
    metadataString +:+
    CRLF +:+ "--" +:+ boundary +:+ CRLF +:+
    "Content-Type: " +:+ default "undefined" (md_contentType metadata_) +:+
    CRLF +:+ CRLF in
  let postBlobPart := CRLF +:+ "--" +:+ boundary +:+ "--" in
  let* body := call_getBlob preBlobPart blob postBlobPart in
  match body with
  | None => throw cannotSliceBlob
  | Some body =>
    let urlParams : gmap string string :=
      {[ "name" := default "undefined" (md_fullPath metadata_) ]} in
    let url := makeUrl urlPart (host service) (_protocol service) in
    let method := "POST" in
    let timeout := maxUploadRetryTime service in
    let requestInfo := new_RequestInfo url method (metadataHandler service mappings) timeout in
    let requestInfo := set_urlParams requestInfo urlParams in
    let requestInfo := set_headers requestInfo headers in
    let requestInfo := set_body requestInfo (Some (BodyData (uploadData body))) in
    let requestInfo := set_errorHandler requestInfo (Some (sharedErrorHandler location)) in
    ret requestInfo
  end.

(** *** Resumable uploads *)

Record ResumableUploadStatus : Type := mkStatus {
  current : Z;
  total : Z;
  finalized : bool;
  metadata : option Metadata
}.

(** [new ResumableUploadStatus(current, total, finalized?, metadata?)]:
    [finalized] is [!!finalized] and [metadata] is [metadata || null]. *)
Definition new_ResumableUploadStatus (current total : Z)
    (finalized : option bool) (metadata : option Metadata) : ResumableUploadStatus :=
  {| current := current; total := total;
     finalized := default false finalized;
     metadata := metadata |}.

(** [l.indexOf(x)] *)
Fixpoint indexOf (l : list string) (x : string) : Z :=
  match l with
  | [] => -1
  | y :: l' =>
    if String.eqb y x then 0
    else let i := indexOf l' x in if i =? -1 then -1 else i + 1
  end.

(** [xhr.getResponseHeader(name)] under [try]/[catch] with
    [handlerCheck(false)] in the handler. *)
Definition tryGetResponseHeader (xhr : Connection) (name : string) : Eff (option string) :=
  match getResponseHeader xhr name with
  | HeaderIs v => ret v
  | HeaderThrows => let* _ := handlerCheck false in ret None
  end.

Definition checkResumeHeader_ (xhr : Connection) (allowed : option (list string)) : Eff string :=
  let* status := tryGetResponseHeader xhr "X-Goog-Upload-Status" in
  let allowedStatus := default ["active"] allowed in
  match status with
  | Some s =>
    let* _ := handlerCheck (truthy status && negb (indexOf allowedStatus s =? -1)) in
    ret s
  | None =>
    let* _ := handlerCheck false in
    ret ""
  end.

(** The response handler of [createResumableUpload]. *)
Definition createResumableUpload_handler (xhr : Connection) (text : string) : Eff string :=
  let* _ := checkResumeHeader_ xhr None in
  let* url := tryGetResponseHeader xhr "X-Goog-Upload-URL" in
  match url with
  | Some u => let* _ := handlerCheck true in ret u
  | None => let* _ := handlerCheck false in ret ""
  end.

Definition createResumableUpload (service : FirebaseStorageImpl) (location : Location)
    (mappings : Mappings) (blob : FbsBlob) (metadata : option Metadata) : RequestInfo string :=
  let urlPart := bucketOnlyServerUrl location in
  let metadataForUpload := metadataForUpload_ location blob metadata in
  let urlParams : gmap string string :=
    {[ "name" := default "undefined" (md_fullPath metadataForUpload) ]} in
  let url := makeUrl urlPart (host service) (_protocol service) in
  let method := "POST" in
  let headers : gmap string string :=
    <[ "X-Goog-Upload-Protocol" := "resumable" ]>
    (<[ "X-Goog-Upload-Command" := "start" ]>
    (<[ "X-Goog-Upload-Header-Content-Length" := pretty (blob_size blob) ]>
    (<[ "X-Goog-Upload-Header-Content-Type" := default "undefined" (md_contentType metadataForUpload) ]>
    (<[ "Content-Type" := "application/json; charset=utf-8" ]> ∅)))) in
  let body := toResourceString metadataForUpload mappings in
  let timeout := maxUploadRetryTime service in
  let requestInfo := new_RequestInfo url method createResumableUpload_handler timeout in
  let requestInfo := set_urlParams requestInfo urlParams in
  let requestInfo := set_headers requestInfo headers in
  let requestInfo := set_body requestInfo (Some (BodyString body)) in
  let requestInfo := set_errorHandler requestInfo (Some (sharedErrorHandler location)) in
  requestInfo.

(** The response handler of [getResumableUploadStatus]. *)
Definition getResumableUploadStatus_handler (blob : FbsBlob)
    (xhr : Connection) (text : string) : Eff ResumableUploadStatus :=
  let* status := checkResumeHeader_ xhr (Some ["active"; "final"]) in
  let* sizeString := tryGetResponseHeader xhr "X-Goog-Upload-Size-Received" in
  let* _ := (if negb (truthy sizeString) then handlerCheck false else ret tt) in
  let size := Number_ (default "" sizeString) in
  match size with
  | None => let* _ := handlerCheck false in ret (new_ResumableUploadStatus 0 0 None None)
  | Some size =>
    let* _ := handlerCheck true in
    ret (new_ResumableUploadStatus size (blob_size blob) (Some (String.eqb status "final")) None)
  end.

Definition getResumableUploadStatus (service : FirebaseStorageImpl) (location : Location)
    (url : string) (blob : FbsBlob) : RequestInfo ResumableUploadStatus :=
  let headers : gmap string string := {[ "X-Goog-Upload-Command" := "query" ]} in
  let method := "POST" in
  let timeout := maxUploadRetryTime service in
  let requestInfo := new_RequestInfo url method (getResumableUploadStatus_handler blob) timeout in
  let requestInfo := set_headers requestInfo headers in
  let requestInfo := set_errorHandler requestInfo (Some (sharedErrorHandler location)) in
  requestInfo.

(** Any uploads via the resumable upload API must transfer a number of bytes
    that is a multiple of this number. *)
Definition RESUMABLE_UPLOAD_CHUNK_SIZE : Z := 256 * 1024.

(** The response handler of [continueResumableUpload]; it closes over the
    builder's [status_] and [bytesToUpload]. *)
Definition continueResumableUpload_handler (service : FirebaseStorageImpl)
    (mappings : Mappings) (blob : FbsBlob) (status_ : ResumableUploadStatus)
    (bytesToUpload : Z) (xhr : Connection) (text : string) : Eff ResumableUploadStatus :=
  let* uploadStatus := checkResumeHeader_ xhr (Some ["active"; "final"]) in
  let newCurrent := current status_ + bytesToUpload in
  let size := blob_size blob in
  let* metadata :=
    (if String.eqb uploadStatus "final"
     then let* m := metadataHandler service mappings xhr text in ret (Some m)
     else ret None) in
  ret (new_ResumableUploadStatus newCurrent size
         (Some (String.eqb uploadStatus "final")) metadata).

Definition continueResumableUpload (location : Location) (service : FirebaseStorageImpl)
    (url : string) (blob : FbsBlob) (chunkSize : Z) (mappings : Mappings)
    (status : option ResumableUploadStatus)
    (progressCallback : option (Z -> Z -> unit)) : Eff (RequestInfo ResumableUploadStatus) :=
  let status_ := new_ResumableUploadStatus 0 0 None None in
  let status_ :=
    match status with
    | Some status => mkStatus (current status) (total status) (finalized status_) (metadata status_)
    | None => mkStatus 0 (blob_size blob) (finalized status_) (metadata status_)
    end in
  if negb (blob_size blob =? total status_) then throw serverFileWrongSize else
  let bytesLeft := total status_ - current status_ in
  let bytesToUpload := bytesLeft in
  let bytesToUpload := if chunkSize >? 0 then Z.min bytesToUpload chunkSize else bytesToUpload in
  let startByte := current status_ in
  let endByte := startByte + bytesToUpload in
  let uploadCommand := if bytesToUpload =? bytesLeft then "upload, finalize" else "upload" in
  let headers : gmap string string :=
    <[ "X-Goog-Upload-Command" := uploadCommand ]>
    (<[ "X-Goog-Upload-Offset" := pretty (current status_) ]> ∅) in
  let* body := call_slice blob startByte endByte in
  match body with
  | None => throw cannotSliceBlob
  | Some body =>
    let handler := continueResumableUpload_handler service mappings blob status_ bytesToUpload in
    let method := "POST" in
    let timeout := maxUploadRetryTime service in
    let requestInfo := new_RequestInfo url method handler timeout in
    let requestInfo := set_headers requestInfo headers in
    let requestInfo := set_body requestInfo (Some (BodyData (uploadData body))) in
    let requestInfo := set_progressCallback requestInfo progressCallback in
    let requestInfo := set_errorHandler requestInfo (Some (sharedErrorHandler location)) in
    ret requestInfo
  end.

(** Whether the response carries an [X-Goog-Upload-Status] header whose
    value is one of [allowedStatus]; false when the lookup throws or returns
    null. *)
Definition statusAllowed (xhr : Connection) (allowedStatus : list string) : bool :=
  match getResponseHeader xhr "X-Goog-Upload-Status" with
  | HeaderIs (Some s) => existsb (fun a => String.eqb a s) allowedStatus
  | _ => false
  end.

(** The content type in the specification's words: the caller-supplied
    metadata's [contentType] if present, else the blob's own type if
    non-empty, else the literal default. *)
Definition contentType_if_present (metadata : option Metadata) (blob : FbsBlob) : string :=
  match metadata ≫= md_contentType with
  | Some c => c
  | None =>
    if String.eqb (blob_type blob) "" then "application/octet-stream" else blob_type blob
  end.

(** The content type as the code resolves it: a [contentType] that is present
    and non-empty, else the blob's own type if non-empty, else the literal
    default. *)
Definition contentType_if_nonempty (metadata : option Metadata) (blob : FbsBlob) : string :=
  let fallback :=
    if String.eqb (blob_type blob) "" then "application/octet-stream" else blob_type blob in
  match metadata ≫= md_contentType with
  | Some c => if String.eqb c "" then fallback else c
  | None => fallback
  end.

(** The offset and the total that a call to [continueResumableUpload] starts
    from: those of the prior status, or [0] and the blob's size without one. *)
Definition priorCurrent (status : option ResumableUploadStatus) : Z :=
  from_option current 0 status.

Definition priorTotal (blob : FbsBlob) (status : option ResumableUploadStatus) : Z :=
  from_option total (blob_size blob) status.

(** The request descriptor that [continueResumableUpload] returns when it
    uploads the [n] bytes of [chunk] from offset [cur], out of [bytesLeft]
    (lemma [continueResumableUpload_sized]). *)
Definition chunkRequest (location : Location) (service : FirebaseStorageImpl)
    (url : string) (blob : FbsBlob) (mappings : Mappings)
    (cb : option (Z -> Z -> unit)) (cur n bytesLeft : Z) (chunk : FbsBlob)
    : RequestInfo ResumableUploadStatus :=
  {| url := url; method := "POST";
     handler := continueResumableUpload_handler service mappings blob
                  (mkStatus cur (blob_size blob) false None) n;
     timeout := maxUploadRetryTime service;
     urlParams := ∅;
     headers :=
       <[ "X-Goog-Upload-Command" :=
            if n =? bytesLeft then "upload, finalize" else "upload" ]>
       (<[ "X-Goog-Upload-Offset" := pretty cur ]> ∅);
     body := Some (BodyData (uploadData chunk));
     errorHandler := Some (sharedErrorHandler location);
     progressCallback := cb |}.

(** *** The chunk loop *)

(** Modelled from the spec: the chunk loop of the upload state machine
    (section 4.3, step 3); the upload task that drives the requests is not
    among the sources. Each round builds the chunk request from the latest
    status, hands it to the server, and decodes the response with the
    request's own handler: on a status that is not finalized it loops from
    the new status, on a finalized one it stops. The result lists the chunk
    requests issued, in order, with the final status; [None] means the fuel
    ran out first. *)
Fixpoint uploadLoop (fuel : nat)
    (server : RequestInfo ResumableUploadStatus -> Connection * string)
    (location : Location) (service : FirebaseStorageImpl) (url : string)
    (blob : FbsBlob) (chunkSize : Z) (mappings : Mappings)
    (status : option ResumableUploadStatus)
    : Eff (option (list (RequestInfo ResumableUploadStatus) * ResumableUploadStatus)) :=
  match fuel with
  | O => ret None
  | S fuel' =>
    let* request :=
      continueResumableUpload location service url blob chunkSize mappings status None in
    let '(xhr, text) := server request in
    let* newStatus := handler request xhr text in
    if finalized newStatus then ret (Some ([request], newStatus))
    else
      let* rest :=
        uploadLoop fuel' server location service url blob chunkSize mappings (Some newStatus) in
      ret (match rest with
           | Some (requests, final) => Some (request :: requests, final)
           | None => None
           end)
  end.

(** Modelled from the spec: a server that follows the wire protocol of
    section 6 for chunk requests: it answers upload status [final], with
    [metadataText] as the response body, to a request whose command is
    [upload, finalize], and [active] to any other. *)
Definition protocolServer (metadataText : string)
    (request : RequestInfo ResumableUploadStatus) : Connection * string :=
  let final_ :=
    match headers request !! "X-Goog-Upload-Command" with
    | Some c => String.eqb c "upload, finalize"
    | None => false
    end in
  let status := if final_ then "final" else "active" in
  ({| getStatus := 200;
      getResponseText := if final_ then metadataText else "";
      getResponseHeader := fun name =>
        HeaderIs (if String.eqb name "X-Goog-Upload-Status" then Some status else None) |},
   if final_ then metadataText else "").

End Requests.

(** ** The other request builders *)

(** [downloadUrlFromResourceString] of [implementation/metadata.ts], a part
    of the metadata (de)serializer that is not among the sources: the
    download URL of an object from its metadata, or null. *)
Class DownloadUrlCodec : Type := {
  downloadUrlFromResourceString : Metadata -> string -> string -> string -> option string
}.

(** A value of [UrlParams]: [string | number]. *)
Inductive UrlParam : Type :=
  | ParamString (s : string)
  | ParamNumber (n : Z).

Section ObjectRequests.
Context `{!FbsBlobApi, !MetadataCodec, !UrlApi, !JsBuiltins, !DownloadUrlCodec}.

Notation "'let*' x ':=' m 'in' k" := (bind m (fun x => k))
  (at level 10, x name, m at level 200, k at level 200, only parsing).

Definition downloadUrlHandler (service : FirebaseStorageImpl) (mappings : Mappings)
    (xhr : Connection) (text : string) : Eff (option string) :=
  let metadata := fromResourceString service text mappings in
  match metadata with
  | Some m =>
    let* _ := handlerCheck true in
    ret (downloadUrlFromResourceString m text (host service) (_protocol service))
  | None => let* _ := handlerCheck false in ret None
  end.

Definition getDownloadUrl (service : FirebaseStorageImpl) (location : Location)
    (mappings : Mappings) : RequestInfo (option string) :=
  let urlPart := fullServerUrl location in
  let url := makeUrl urlPart (host service) (_protocol service) in
  let method := "GET" in
  let timeout := maxOperationRetryTime service in
  let requestInfo := new_RequestInfo url method (downloadUrlHandler service mappings) timeout in
  set_errorHandler requestInfo (Some (objectErrorHandler location)).

Definition updateMetadata (service : FirebaseStorageImpl) (location : Location)
    (metadata : Metadata) (mappings : Mappings) : RequestInfo Metadata :=
  let urlPart := fullServerUrl location in
  let url := makeUrl urlPart (host service) (_protocol service) in
  let method := "PATCH" in
  let body := toResourceString metadata mappings in
  let headers : gmap string string :=
    {[ "Content-Type" := "application/json; charset=utf-8" ]} in
  let timeout := maxOperationRetryTime service in
  let requestInfo := new_RequestInfo url method (metadataHandler service mappings) timeout in
  let requestInfo := set_headers requestInfo headers in
  let requestInfo := set_body requestInfo (Some (BodyString body)) in
  set_errorHandler requestInfo (Some (objectErrorHandler location)).

(** The [urlParams] object that [list] builds before it makes its request.
    [isRoot] is the [isRoot] property of the location, which is declared
    outside the sources; [delimiter], [pageToken] and [maxResults] are
    optional or nullable there. *)
Definition list_urlParams (isRoot : bool) (location : Location)
    (delimiter pageToken : option string) (maxResults : option Z) : gmap string UrlParam :=
  let urlParams : gmap string UrlParam := ∅ in
  let urlParams :=
    if isRoot then <[ "prefix" := ParamString "" ]> urlParams
    else <[ "prefix" := ParamString (path location +:+ "/") ]> urlParams in
  let urlParams :=
    match delimiter with
    | Some d =>
      if truthy delimiter && (Z.of_nat (String.length d) >? 0)
      then <[ "delimiter" := ParamString d ]> urlParams else urlParams
    | None => urlParams
    end in
  let urlParams :=
    match pageToken with
    | Some t => if truthy pageToken then <[ "pageToken" := ParamString t ]> urlParams else urlParams
    | None => urlParams
    end in
  let urlParams :=
    match maxResults with
    | Some n => if negb (n =? 0) then <[ "maxResults" := ParamNumber n ]> urlParams else urlParams
    | None => urlParams
    end in
  urlParams.

End ObjectRequests.

(** ** Concrete collaborators

    Instances of the interfaces above on which the definitions run. *)

(** A byte source in the manner of a typed-array view: a window
    [byteOffset, byteOffset + byteLength) onto a buffer. [sliceable] is false
    for a medium that has no slice operation, in which case [slice] and
    [getBlob] return null. *)
Record ViewBlob : Type := mkViewBlob {
  buffer : N -> Byte.byte;
  byteOffset : N;
  byteLength : N;
  view_type : string;
  sliceable : bool
}.

Definition view_slice (b : ViewBlob) (startByte endByte : Z) : option ViewBlob :=
  if sliceable b then
    Some {| buffer := buffer b;
            byteOffset := byteOffset b + Z.to_N startByte;
            byteLength := Z.to_N (endByte - startByte);
            view_type := view_type b;
            sliceable := true |}
  else None.

Definition string_byte (s : string) (i : N) : Byte.byte :=
  match String.get (N.to_nat i) s with
  | Some c => Ascii.byte_of_ascii c
  | None => Byte.x00
  end.

Definition view_getBlob (pre : string) (b : ViewBlob) (post : string) : option ViewBlob :=
  if sliceable b then
    let n1 := N.of_nat (String.length pre) in
    let n2 := (n1 + byteLength b)%N in
    Some {| buffer := fun i =>
              if (i <? n1)%N then string_byte pre i
              else if (i <? n2)%N then buffer b (byteOffset b + (i - n1))%N
              else string_byte post (i - n2)%N;
            byteOffset := 0;
            byteLength := n2 + N.of_nat (String.length post);
            view_type := "";
            sliceable := true |}
  else None.

Lemma view_slice_size (b : ViewBlob) (s e : Z) (b' : ViewBlob) :
  0 <= s <= e -> e <= Z.of_N (byteLength b) ->
  view_slice b s e = Some b' -> Z.of_N (byteLength b') = e - s.
Proof.
  unfold view_slice. intros Hse _ Hsl.
  destruct (sliceable b); [|discriminate].
  injection Hsl as <-. cbn. lia.
Qed.

#[global] Instance viewBlobApi : FbsBlobApi := {|
  FbsBlob := ViewBlob;
  UploadData := ViewBlob;
  blob_size := fun b => Z.of_N (byteLength b);
  blob_type := view_type;
  blob_slice := view_slice;
  getBlob := view_getBlob;
  uploadData := fun b => b;
  dataLength := fun b => Z.of_N (byteLength b);
  blob_size_nonneg := fun b => N2Z.is_nonneg (byteLength b);
  blob_slice_size := view_slice_size;
  uploadData_length := fun b => eq_refl
|}.

(** A serializer that writes the object's full path and reads any non-empty
    text back as a full path. *)
#[global] Instance pathCodec : MetadataCodec := {|
  Mappings := unit;
  toResourceString := fun m _ => default "" (md_fullPath m);
  fromResourceString := fun _ text _ =>
    if String.eqb text "" then None
    else Some {| md_fullPath := Some text; md_size := None;
                 md_contentType := None; md_rest := ∅ |}
|}.

#[global] Instance plainUrls : UrlApi := {|
  makeUrl := fun urlPart host protocol => protocol +:+ "://" +:+ host +:+ "/v0" +:+ urlPart;
  bucketOnlyServerUrl := fun l => "/b/" +:+ bucket l +:+ "/o";
  fullServerUrl := fun l => "/b/" +:+ bucket l +:+ "/o/" +:+ path l
|}.

(** [Number] on strings of decimal digits; anything else is NaN here. *)
Fixpoint parse_digits (acc : Z) (s : string) : option Z :=
  match s with
  | EmptyString => Some acc
  | String c rest =>
    let n := Z.of_nat (Ascii.nat_of_ascii c) in
    if (48 <=? n) && (n <=? 57) then parse_digits (10 * acc + (n - 48)) rest else None
  end.

#[global] Instance decimalNumbers : JsBuiltins := {|
  Number_ := parse_digits 0
|}.

(** A view of [n] zero bytes. *)
Definition zeros (n : N) (type : string) (sliceable : bool) : FbsBlob :=
  {| buffer := fun _ => Byte.x00; byteOffset := 0; byteLength := n;
     view_type := type; sliceable := sliceable |}.

Definition testService : FirebaseStorageImpl :=
  {| host := "firebasestorage.googleapis.com"; _protocol := "https";
     maxUploadRetryTime := 600000; maxOperationRetryTime := 120000 |}.

Definition testMappings : Mappings := tt.

(** The window of [n] zero bytes at offset [start]. *)
Definition zerosAt (start n : N) : FbsBlob :=
  {| buffer := fun _ => Byte.x00; byteOffset := start; byteLength := n;
     view_type := ""; sliceable := true |}.

Definition testLocation : Location := {| bucket := "b"; path := "dir/file.bin" |}.

(** A response with the given status code, body and headers. *)
Definition response (status : Z) (text : string) (hs : gmap string string) : Connection :=
  {| getStatus := status; getResponseText := text;
     getResponseHeader := fun name => HeaderIs (hs !! name) |}.

Definition appCheckText : string :=
  "{ error: { code: 401, message: Firebase App Check token is invalid. } }".

Definition serverError : StorageError :=
  {| code := OtherError "storage/retry-limit-exceeded"; serverResponse := Some "try later" |}.

Definition fixedRandom (i : nat) : string := "0.7364519028".

Definition cancelledResponse : Connection :=
  response 200 "" {[ "X-Goog-Upload-Status" := "cancelled" ]}.

Definition activeResponse : Connection :=
  response 200 "" {[ "X-Goog-Upload-Status" := "active" ]}.

Definition finalResponse : Connection :=
  response 200 "dir/file.bin"
    (<[ "X-Goog-Upload-Status" := "final" ]> {[ "X-Goog-Upload-Size-Received" := "10" ]}).

(** The download URL of an object that has a full path, from its path. *)
#[global] Instance pathDownloadUrls : DownloadUrlCodec := {|
  downloadUrlFromResourceString := fun m _ host protocol =>
    match md_fullPath m with
    | Some p => Some (protocol +:+ "://" +:+ host +:+ "/v0/o/" +:+ p +:+ "?alt=media")
    | None => None
    end
|}.

Definition notFoundResponse : Connection := response 404 "Not Found" ∅.

(** A byte source whose two operations fail independently of each other:
    [slice] returns null when [canSlice] is false and [getBlob] returns null
    when [canAssemble] is false. Only its length and type are kept. *)
Record FlagBlob : Type := mkFlagBlob {
  flag_length : N;
  flag_type : string;
  canSlice : bool;
  canAssemble : bool
}.

Definition flag_slice (b : FlagBlob) (startByte endByte : Z) : option FlagBlob :=
  if canSlice b then
    Some {| flag_length := Z.to_N (endByte - startByte); flag_type := flag_type b;
            canSlice := canSlice b; canAssemble := canAssemble b |}
  else None.

Definition flag_getBlob (pre : string) (b : FlagBlob) (post : string) : option FlagBlob :=
  if canAssemble b then
    Some {| flag_length :=
              N.of_nat (String.length pre) + flag_length b + N.of_nat (String.length post);
            flag_type := ""; canSlice := canSlice b; canAssemble := canAssemble b |}
  else None.

Lemma flag_slice_size (b : FlagBlob) (s e : Z) (b' : FlagBlob) :
  0 <= s <= e -> e <= Z.of_N (flag_length b) ->
  flag_slice b s e = Some b' -> Z.of_N (flag_length b') = e - s.
Proof.
  unfold flag_slice. intros Hse _ Hsl.
  destruct (canSlice b); [|discriminate].
  injection Hsl as <-. cbn. lia.
Qed.

Definition flagBlobApi : FbsBlobApi := {|
  FbsBlob := FlagBlob;
  UploadData := FlagBlob;
  blob_size := fun b => Z.of_N (flag_length b);
  blob_type := flag_type;
  blob_slice := flag_slice;
  getBlob := flag_getBlob;
  uploadData := fun b => b;
  dataLength := fun b => Z.of_N (flag_length b);
  blob_size_nonneg := fun b => N2Z.is_nonneg (flag_length b);
  blob_slice_size := flag_slice_size;
  uploadData_length := fun b => eq_refl
|}.

(** Ten bytes that cannot be sliced but can be assembled into a body, and ten
    bytes that can be sliced but not assembled. *)
Definition unsliceable : @FbsBlob flagBlobApi :=
  {| flag_length := 10; flag_type := ""; canSlice := false; canAssemble := true |}.

Definition unassemblable : @FbsBlob flagBlobApi :=
  {| flag_length := 10; flag_type := ""; canSlice := true; canAssemble := false |}.

(** The largest integer below which every integer is a JavaScript number. *)
Definition MAX_SAFE_INTEGER : Z := 2 ^ 53 - 1.

(** * Properties *)

Section Properties.
Context `{!FbsBlobApi, !MetadataCodec, !UrlApi, !JsBuiltins}.

(** ** Chunk requests *)

Lemma bytesToUpload_cases (bytesLeft chunkSize : Z) :
  (if chunkSize >? 0 then Z.min bytesLeft chunkSize else bytesLeft)
  = (if chunkSize <=? 0 then bytesLeft else Z.min bytesLeft chunkSize).
Proof.
  destruct (Z.gtb_spec chunkSize 0), (Z.leb_spec chunkSize 0); lia || reflexivity.
Qed.

Lemma bytesToUpload_range (bytesLeft chunkSize : Z) :
  0 <= bytesLeft ->
  0 <= (if chunkSize <=? 0 then bytesLeft else Z.min bytesLeft chunkSize) <= bytesLeft.
Proof. intros. destruct (Z.leb_spec chunkSize 0); lia. Qed.

(** What [continueResumableUpload] does once the size check has passed, with
    the slice it asks for named. *)
Lemma continueResumableUpload_sized location service url blob chunkSize mappings status cb :
  priorTotal blob status = blob_size blob ->
  let cur := priorCurrent status in
  let bytesLeft := blob_size blob - cur in
  let n := if chunkSize <=? 0 then bytesLeft else Z.min bytesLeft chunkSize in
  continueResumableUpload location service url blob chunkSize mappings status cb
  = ([SliceCall blob cur (cur + n)],
     match blob_slice blob cur (cur + n) with
     | None => inl cannotSliceBlob
     | Some chunk =>
       inr (chunkRequest location service url blob mappings cb cur n bytesLeft chunk)
     end).
Proof.
  intros Htot cur bytesLeft n. subst cur bytesLeft n.
  unfold continueResumableUpload.
  destruct status as [st|]; cbn [priorTotal priorCurrent from_option] in *;
    cbn [new_ResumableUploadStatus current total finalized metadata default from_option].
  - rewrite Htot, Z.eqb_refl. cbn [negb]. rewrite bytesToUpload_cases.
    unfold call_slice, bind.
    destruct (blob_slice blob _ _); reflexivity.
  - rewrite Z.eqb_refl. cbn [negb]. rewrite bytesToUpload_cases.
    unfold call_slice, bind.
    destruct (blob_slice blob _ _); reflexivity.
Qed.

(** C1. A call to [continueResumableUpload] on a blob of size [total], from a
    prior confirmed offset [current] with [0 <= current <= total], builds a
    request that uploads exactly [bytesToUpload] bytes, where [bytesToUpload]
    is [total - current] if [chunkSize <= 0] and
    [min (total - current) chunkSize] otherwise; its [X-Goog-Upload-Offset]
    header is [current], and its [X-Goog-Upload-Command] header is
    ["upload, finalize"] exactly when [current + bytesToUpload = total] and
    ["upload"] otherwise. The byte source is asked for the range
    [current, current + bytesToUpload) and the request's body is that slice. *)
Theorem continueResumableUpload_chunk_request
    location service url blob chunkSize mappings status cb chunk :
  let tot := blob_size blob in
  let cur := priorCurrent status in
  let bytesToUpload := if chunkSize <=? 0 then tot - cur else Z.min (tot - cur) chunkSize in
  priorTotal blob status = tot ->
  0 <= cur <= tot ->
  blob_slice blob cur (cur + bytesToUpload) = Some chunk ->
  exists request,
    continueResumableUpload location service url blob chunkSize mappings status cb
    = ([SliceCall blob cur (cur + bytesToUpload)], inr request)
    /\ body request = Some (BodyData (uploadData chunk))
    /\ payloadBytes (body request) = Some bytesToUpload
    /\ headers request !! "X-Goog-Upload-Offset" = Some (pretty cur)
    /\ (cur + bytesToUpload = tot ->
        headers request !! "X-Goog-Upload-Command" = Some "upload, finalize")
    /\ (cur + bytesToUpload <> tot ->
        headers request !! "X-Goog-Upload-Command" = Some "upload").
Proof.
  intros tot cur n Htot Hcur Hslice.
  pose proof (bytesToUpload_range (tot - cur) chunkSize ltac:(lia)) as Hn. fold n in Hn.
  rewrite (continueResumableUpload_sized _ _ _ _ _ _ _ _ Htot).
  fold cur tot n. rewrite Hslice.
  eexists. split; [reflexivity|]. cbn [body headers payloadBytes chunkRequest].
  split; [reflexivity|]. split.
  { rewrite uploadData_length.
    rewrite (blob_slice_size blob cur (cur + n) chunk); [f_equal; lia|lia|fold tot; lia|exact Hslice]. }
  split.
  { rewrite lookup_insert_ne by discriminate. apply lookup_insert_eq. }
  rewrite lookup_insert_eq.
  split; intros Hfin.
  - replace (n =? tot - cur) with true by (symmetry; apply Z.eqb_eq; lia). reflexivity.
  - replace (n =? tot - cur) with false by (symmetry; apply Z.eqb_neq; lia). reflexivity.
Qed.

(** C2. A call to [continueResumableUpload] with a prior status whose total
    differs from the blob's size throws the server-file-wrong-size error at
    once: no request descriptor is built and no call has been made to the
    byte source. *)
Theorem continueResumableUpload_wrong_size
    location service url blob chunkSize mappings (status : ResumableUploadStatus) cb :
  total status <> blob_size blob ->
  continueResumableUpload location service url blob chunkSize mappings (Some status) cb
  = ([], inl serverFileWrongSize).
Proof.
  intros Hne. unfold continueResumableUpload. cbn [total].
  replace (blob_size blob =? total status) with false
    by (symmetry; apply Z.eqb_neq; congruence).
  reflexivity.
Qed.

(** C4. For a byte source of size 0, [continueResumableUpload] without a
    prior status builds one chunk request whose [X-Goog-Upload-Command] is
    ["upload, finalize"], whose [X-Goog-Upload-Offset] is 0 and whose body has
    zero bytes (the empty range [0, 0) of the source). *)
Theorem continueResumableUpload_empty_blob
    location service url blob chunkSize mappings cb chunk :
  blob_size blob = 0 ->
  blob_slice blob 0 0 = Some chunk ->
  exists request,
    continueResumableUpload location service url blob chunkSize mappings None cb
    = ([SliceCall blob 0 0], inr request)
    /\ headers request !! "X-Goog-Upload-Command" = Some "upload, finalize"
    /\ headers request !! "X-Goog-Upload-Offset" = Some "0"
    /\ body request = Some (BodyData (uploadData chunk))
    /\ payloadBytes (body request) = Some 0.
Proof.
  intros Hsize Hslice.
  rewrite (continueResumableUpload_sized _ _ _ _ _ _ None _ eq_refl).
  cbn [priorCurrent from_option]. rewrite Hsize.
  replace (if chunkSize <=? 0 then 0 - 0 else Z.min (0 - 0) chunkSize) with 0
    by (destruct (Z.leb_spec chunkSize 0); lia).
  rewrite !Z.add_0_r, Hslice.
  eexists. split; [reflexivity|]. cbn [body headers payloadBytes chunkRequest].
  split; [apply lookup_insert_eq|].
  split; [rewrite lookup_insert_ne by discriminate; apply lookup_insert_eq|].
  split; [reflexivity|].
  rewrite uploadData_length.
  rewrite (blob_slice_size blob 0 0 chunk); [reflexivity|lia|lia|exact Hslice].
Qed.

(** ** Response handlers *)

Lemma indexOf_existsb (l : list string) (x : string) :
  negb (indexOf l x =? -1) = existsb (fun a => String.eqb a x) l
  /\ -1 <= indexOf l x.
Proof.
  induction l as [|y l [IH1 IH2]]; cbn [indexOf existsb]; [split; [reflexivity|lia]|].
  destruct (String.eqb y x); cbn [orb]; [split; [reflexivity|lia]|].
  cbv zeta. rewrite <- IH1.
  destruct (Z.eqb_spec (indexOf l x) (-1)) as [Heq|Hne]; cbn [negb]; [split; [reflexivity|lia]|].
  split; [|lia]. destruct (Z.eqb_spec (indexOf l x + 1) (-1)); [lia|reflexivity].
Qed.

Lemma checkResumeHeader_rejects xhr allowed :
  statusAllowed xhr (default ["active"] allowed) = false ->
  checkResumeHeader_ xhr allowed = ([], inl unknown).
Proof.
  unfold statusAllowed, checkResumeHeader_, tryGetResponseHeader.
  destruct (getResponseHeader xhr "X-Goog-Upload-Status") as [|[s|]]; intros Hbad;
    [reflexivity| |reflexivity].
  cbn [bind ret]. rewrite (proj1 (indexOf_existsb _ s)), Hbad, andb_false_r. reflexivity.
Qed.

Lemma checkResumeHeader_returns xhr allowed log s :
  checkResumeHeader_ xhr allowed = (log, inr s) ->
  log = []
  /\ getResponseHeader xhr "X-Goog-Upload-Status" = HeaderIs (Some s)
  /\ s <> ""
  /\ In s (default ["active"] allowed).
Proof.
  unfold checkResumeHeader_, tryGetResponseHeader.
  destruct (getResponseHeader xhr "X-Goog-Upload-Status") as [|[h|]];
    [discriminate| |discriminate].
  cbn [bind ret]. rewrite (proj1 (indexOf_existsb _ h)).
  destruct h as [|c h']; [discriminate|]. cbn [truthy andb].
  destruct (existsb _ _) eqn:Hex; [|discriminate].
  cbn. intros [= <- <-]. repeat split; [discriminate|].
  apply existsb_exists in Hex as (a & Hin & Heq).
  apply String.eqb_eq in Heq. subst a. exact Hin.
Qed.

Lemma checkResumeHeader_accepts xhr allowed s :
  getResponseHeader xhr "X-Goog-Upload-Status" = HeaderIs (Some s) ->
  s <> "" -> In s (default ["active"] allowed) ->
  checkResumeHeader_ xhr allowed = ([], inr s).
Proof.
  intros Hh Hne Hin. unfold checkResumeHeader_, tryGetResponseHeader. rewrite Hh.
  cbn [bind ret]. rewrite (proj1 (indexOf_existsb _ s)).
  replace (existsb _ _) with true.
  - destruct s; [congruence|reflexivity].
  - symmetry. apply existsb_exists. exists s. split; [exact Hin|apply String.eqb_refl].
Qed.

(** A request that [continueResumableUpload] returns was built after the size
    check passed. *)
Lemma continueResumableUpload_mismatch location service url blob chunkSize mappings status cb :
  priorTotal blob status <> blob_size blob ->
  continueResumableUpload location service url blob chunkSize mappings status cb
  = ([], inl serverFileWrongSize).
Proof.
  intros Hne. unfold continueResumableUpload.
  destruct status as [st|]; cbn [priorTotal from_option] in Hne; [|congruence].
  cbn [total].
  replace (blob_size blob =? total st) with false
    by (symmetry; apply Z.eqb_neq; congruence).
  reflexivity.
Qed.

Lemma continueResumableUpload_handler_of location service url blob chunkSize mappings status cb
    log request :
  continueResumableUpload location service url blob chunkSize mappings status cb
  = (log, inr request) ->
  let cur := priorCurrent status in
  let bytesLeft := blob_size blob - cur in
  let n := if chunkSize <=? 0 then bytesLeft else Z.min bytesLeft chunkSize in
  priorTotal blob status = blob_size blob
  /\ handler request
     = continueResumableUpload_handler service mappings blob
         (mkStatus cur (blob_size blob) false None) n.
Proof.
  intros Hres cur bytesLeft n.
  destruct (Z.eq_dec (priorTotal blob status) (blob_size blob)) as [Heq|Hne].
  - split; [exact Heq|].
    rewrite (continueResumableUpload_sized _ _ _ _ _ _ _ _ Heq) in Hres.
    destruct (blob_slice blob _ _); [|discriminate].
    injection Hres as _ <-. reflexivity.
  - rewrite continueResumableUpload_mismatch in Hres by exact Hne. discriminate.
Qed.

(** C5. A response whose [X-Goog-Upload-Status] header is missing (the lookup
    throws or returns null) or has a value outside the allowed set raises the
    unknown error: in [checkResumeHeader_] for any allowed set, which is
    [["active"]] when none is passed; in the start-session handler, where only
    ["active"] is allowed; in the chunk-upload and query handlers, where
    ["active"] and ["final"] are. There is no silent default: when
    [checkResumeHeader_] returns, it returns the header's own value, which is
    in the allowed set. The start-session handler also raises the unknown
    error when the [X-Goog-Upload-URL] header is missing. *)
Theorem upload_status_header_checked
    service location mappings url blob metadata chunkSize status cb xhr text :
  (forall allowed,
     statusAllowed xhr (default ["active"] allowed) = false ->
     checkResumeHeader_ xhr allowed = ([], inl unknown))
  /\ (forall allowed log s,
       checkResumeHeader_ xhr allowed = (log, inr s) ->
       getResponseHeader xhr "X-Goog-Upload-Status" = HeaderIs (Some s)
       /\ In s (default ["active"] allowed))
  /\ (statusAllowed xhr ["active"] = false ->
      handler (createResumableUpload service location mappings blob metadata) xhr text
      = ([], inl unknown))
  /\ ((forall u, getResponseHeader xhr "X-Goog-Upload-URL" <> HeaderIs (Some u)) ->
      handler (createResumableUpload service location mappings blob metadata) xhr text
      = ([], inl unknown))
  /\ (statusAllowed xhr ["active"; "final"] = false ->
      forall log request,
        continueResumableUpload location service url blob chunkSize mappings status cb
        = (log, inr request) ->
        handler request xhr text = ([], inl unknown))
  /\ (statusAllowed xhr ["active"; "final"] = false ->
      handler (getResumableUploadStatus service location url blob) xhr text
      = ([], inl unknown)).
Proof.
  split; [intros allowed; apply checkResumeHeader_rejects|].
  split.
  { intros allowed log s Hret.
    destruct (checkResumeHeader_returns _ _ _ _ Hret) as (_ & Hh & _ & Hin). auto. }
  split.
  { intros Hbad. cbn [createResumableUpload handler set_errorHandler set_body set_headers
                       set_urlParams new_RequestInfo].
    unfold createResumableUpload_handler.
    rewrite (checkResumeHeader_rejects xhr None Hbad). reflexivity. }
  split.
  { intros Hurl. cbn [createResumableUpload handler set_errorHandler set_body set_headers
                       set_urlParams new_RequestInfo].
    unfold createResumableUpload_handler.
    destruct (checkResumeHeader_ xhr None) as [log [e|s]] eqn:Hchk.
    - unfold checkResumeHeader_, tryGetResponseHeader in Hchk.
      destruct (getResponseHeader xhr "X-Goog-Upload-Status") as [|[h|]];
        cbn [bind ret handlerCheck negb throw] in Hchk.
      + injection Hchk as <- <-. reflexivity.
      + destruct (truthy (Some h) && _); cbn in Hchk; [discriminate|].
        injection Hchk as <- <-. reflexivity.
      + injection Hchk as <- <-. reflexivity.
    - destruct (checkResumeHeader_returns _ _ _ _ Hchk) as (-> & _).
      unfold tryGetResponseHeader.
      destruct (getResponseHeader xhr "X-Goog-Upload-URL") as [|[u|]] eqn:Hu;
        [reflexivity| |reflexivity].
      exfalso. exact (Hurl u eq_refl). }
  split.
  { intros Hbad log request Hreq.
    destruct (continueResumableUpload_handler_of _ _ _ _ _ _ _ _ _ _ Hreq) as [_ ->].
    unfold continueResumableUpload_handler.
    rewrite (checkResumeHeader_rejects xhr (Some ["active"; "final"]) Hbad). reflexivity. }
  intros Hbad. cbn [getResumableUploadStatus handler set_errorHandler set_headers new_RequestInfo].
  unfold getResumableUploadStatus_handler.
  rewrite (checkResumeHeader_rejects xhr (Some ["active"; "final"]) Hbad). reflexivity.
Qed.

(** ** Error handlers *)

Lemma append_cons (c : ascii) (a b : string) : String c a +:+ b = String c (a +:+ b).
Proof. reflexivity. Qed.

Lemma prefix_app (needle hay : string) :
  String.prefix needle hay = true <-> exists post, hay = needle +:+ post.
Proof.
  revert hay. induction needle as [|c needle IH]; intros hay.
  - split; [intros _; exists hay; reflexivity|intros _; destruct hay; reflexivity].
  - destruct hay as [|d hay]; cbn [String.prefix].
    + split; [discriminate|intros [post Hpost]; discriminate].
    + destruct (Ascii.ascii_dec c d) as [->|Hne].
      * rewrite IH. split; intros [post Hpost]; exists post.
        -- rewrite append_cons. congruence.
        -- rewrite append_cons in Hpost. congruence.
      * split; [discriminate|]. intros [post Hpost].
        rewrite append_cons in Hpost. congruence.
Qed.

(** [includes] is substring containment. *)
Lemma includes_spec (hay needle : string) :
  includes hay needle = true <-> exists pre post, hay = pre +:+ needle +:+ post.
Proof.
  induction hay as [|c hay IH]; cbn [includes]; rewrite orb_true_iff.
  - rewrite prefix_app. split.
    + intros [[post Hpost]|Hf]; [|discriminate]. exists "", post. exact Hpost.
    + intros (pre & post & Heq). left. exists post.
      destruct pre; [exact Heq|discriminate].
  - rewrite prefix_app, IH. split.
    + intros [[post Hpost]|(pre & post & Heq)].
      * exists "", post. exact Hpost.
      * exists (String c pre), post. rewrite append_cons. congruence.
    + intros (pre & post & Heq). destruct pre as [|d pre].
      * left. exists post. exact Heq.
      * right. exists pre, post. rewrite append_cons in Heq. congruence.
Qed.

Lemma set_serverResponse_id (err : StorageError) :
  set_serverResponse err (serverResponse err) = err.
Proof. destruct err; reflexivity. Qed.

(** C6. The error handlers map a failed request by its status code. 401 maps
    to unauthorized-app when the response text contains the App Check
    invalid-token message and to unauthenticated otherwise; 402 maps to
    quota-exceeded for the location's bucket; 403 maps to unauthorized for the
    location's path; these three hold under both handlers. 404 maps to
    object-not-found for the location's path under the object-level handler
    only: the shared handler returns the original error. Every other status
    returns the original error unchanged. The mapped error keeps the
    original's server response. *)
Theorem error_handlers_by_status location xhr err :
  let shared := sharedErrorHandler location xhr err in
  let object := objectErrorHandler location xhr err in
  let appCheck := includes (getResponseText xhr) "Firebase App Check token is invalid" in
  (getStatus xhr = 401 -> appCheck = true ->
     code shared = UNAUTHORIZED_APP /\ code object = UNAUTHORIZED_APP)
  /\ (getStatus xhr = 401 -> appCheck = false ->
      code shared = UNAUTHENTICATED /\ code object = UNAUTHENTICATED)
  /\ (getStatus xhr = 402 ->
      code shared = QUOTA_EXCEEDED (bucket location)
      /\ code object = QUOTA_EXCEEDED (bucket location))
  /\ (getStatus xhr = 403 ->
      code shared = UNAUTHORIZED (path location)
      /\ code object = UNAUTHORIZED (path location))
  /\ (getStatus xhr = 404 ->
      code object = OBJECT_NOT_FOUND (path location) /\ shared = err)
  /\ (getStatus xhr <> 401 -> getStatus xhr <> 402 -> getStatus xhr <> 403 ->
      shared = err /\ (getStatus xhr <> 404 -> object = err))
  /\ serverResponse shared = serverResponse err
  /\ serverResponse object = serverResponse err.
Proof.
  intros shared object appCheck. subst shared object appCheck.
  unfold objectErrorHandler, sharedErrorHandler.
  destruct err as [c r]. cbn [serverResponse].
  destruct (includes _ _);
    destruct (Z.eqb_spec (getStatus xhr) 401); destruct (Z.eqb_spec (getStatus xhr) 402);
    destruct (Z.eqb_spec (getStatus xhr) 403); destruct (Z.eqb_spec (getStatus xhr) 404);
    try lia; cbn; repeat split; intros; try lia; try discriminate; reflexivity.
Qed.

(** ** Slicing failures *)

(** C7, as amended. [continueResumableUpload] throws the cannot-slice-blob
    error, and builds no request, when the slice it asks the byte source for
    (the current chunk) is null. [multipartUpload] throws the same error, and
    builds no request, when the body it asks the byte source to assemble
    ([FbsBlob.getBlob]) is null; it never slices the byte source.
    [continueResumableUpload] asks for exactly one slice once the size check
    has passed, and [multipartUpload] always asks for its body once. *)
Theorem null_slice_is_cannot_slice
    random location service url blob chunkSize mappings status cb metadata :
  let continue :=
    continueResumableUpload location service url blob chunkSize mappings status cb in
  let multipart := multipartUpload random service location mappings blob metadata in
  (forall b s e,
     In (SliceCall b s e) (calls continue) -> blob_slice b s e = None ->
     outcome continue = inl cannotSliceBlob)
  /\ (forall pre b post,
       In (GetBlobCall pre b post) (calls multipart) -> getBlob pre b post = None ->
       outcome multipart = inl cannotSliceBlob)
  /\ (priorTotal blob status = blob_size blob ->
      exists s e, calls continue = [SliceCall blob s e])
  /\ (exists pre post, calls multipart = [GetBlobCall pre blob post])
  /\ (forall b s e, ~ In (SliceCall b s e) (calls multipart)).
Proof.
  intros continue multipart. subst continue multipart.
  assert (Hcalls : exists pre post,
            calls (multipartUpload random service location mappings blob metadata)
            = [GetBlobCall pre blob post]).
  { unfold multipartUpload, call_getBlob, bind.
    destruct (getBlob _ blob _); eexists _, _; reflexivity. }
  split; [|split; [|split; [|split]]].
  - intros b s e Hin Hnull.
    destruct (Z.eq_dec (priorTotal blob status) (blob_size blob)) as [Heq|Hne].
    + rewrite (continueResumableUpload_sized _ _ _ _ _ _ _ _ Heq) in *.
      cbn [calls outcome fst snd] in *.
      destruct Hin as [[= <- <- <-]|[]]. rewrite Hnull. reflexivity.
    + rewrite continueResumableUpload_mismatch in Hin by exact Hne. destruct Hin.
  - intros pre b post. unfold multipartUpload, call_getBlob, bind.
    destruct (getBlob _ blob _) eqn:Hget; cbn [calls outcome fst snd].
    + intros [[= <- <- <-]|[]] Hnull. congruence.
    + intros _ _. reflexivity.
  - intros Heq. rewrite (continueResumableUpload_sized _ _ _ _ _ _ _ _ Heq).
    eexists _, _. reflexivity.
  - exact Hcalls.
  - intros b s e Hin. destruct Hcalls as (pre & post & Heq). rewrite Heq in Hin.
    destruct Hin as [Hin|[]]. discriminate Hin.
Qed.

(** ** Upload metadata and the start request *)

Lemma js_or_nonempty (s : option string) (d : string) :
  js_or s d = match s with
              | Some c => if String.eqb c "" then d else c
              | None => d
              end.
Proof. destruct s as [[|c s]|]; reflexivity. Qed.

Lemma determineContentType_resolved metadata blob :
  determineContentType_ metadata (Some blob) = contentType_if_nonempty metadata blob.
Proof.
  unfold determineContentType_, contentType_if_nonempty. rewrite !js_or_nonempty.
  cbn [fmap option_fmap option_map].
  destruct (metadata ≫= md_contentType) as [c|]; reflexivity.
Qed.

Lemma metadataForUpload_fields location blob metadata :
  let m := metadataForUpload_ location blob metadata in
  md_contentType m = Some (contentType_if_nonempty metadata blob)
  /\ md_fullPath m = Some (path location)
  /\ md_size m = Some (blob_size blob)
  /\ md_rest m = md_rest (default empty_metadata metadata).
Proof.
  unfold metadataForUpload_, contentType_if_nonempty, determineContentType_.
  rewrite !js_or_nonempty.
  destruct metadata as [[fp sz [[|c ct]|] rest]|]; cbn; repeat split; reflexivity.
Qed.

Lemma metadataForUpload_record location blob metadata :
  metadataForUpload_ location blob metadata
  = {| md_fullPath := Some (path location);
       md_size := Some (blob_size blob);
       md_contentType := Some (contentType_if_nonempty metadata blob);
       md_rest := md_rest (default empty_metadata metadata) |}.
Proof.
  destruct (metadataForUpload_fields location blob metadata) as (Hct & Hfp & Hsz & Hrest).
  destruct (metadataForUpload_ location blob metadata); cbn in *. congruence.
Qed.

(** C8. [createResumableUpload] builds a POST request whose headers set
    [X-Goog-Upload-Protocol] to ["resumable"], [X-Goog-Upload-Command] to
    ["start"], [X-Goog-Upload-Header-Content-Length] to the blob's size and
    [X-Goog-Upload-Header-Content-Type] to the resolved content type (the
    caller's [contentType] if present and non-empty, else the blob's type if
    non-empty, else ["application/octet-stream"]). Its body is the serialized
    metadata of the target object: the location's path as [fullPath], the
    blob's size as [size], the resolved content type as [contentType], and
    the caller's other properties. The object's name parameter is the
    location's path. *)
Theorem createResumableUpload_start_request service location mappings blob metadata :
  let request := createResumableUpload service location mappings blob metadata in
  let contentType := contentType_if_nonempty metadata blob in
  method request = "POST"
  /\ headers request !! "X-Goog-Upload-Protocol" = Some "resumable"
  /\ headers request !! "X-Goog-Upload-Command" = Some "start"
  /\ headers request !! "X-Goog-Upload-Header-Content-Length"
     = Some (pretty (blob_size blob))
  /\ headers request !! "X-Goog-Upload-Header-Content-Type" = Some contentType
  /\ body request
     = Some (BodyString
               (toResourceString
                  {| md_fullPath := Some (path location);
                     md_size := Some (blob_size blob);
                     md_contentType := Some contentType;
                     md_rest := md_rest (default empty_metadata metadata) |}
                  mappings))
  /\ urlParams request !! "name" = Some (path location).
Proof.
  cbn [createResumableUpload method headers body urlParams set_errorHandler set_body
       set_headers set_urlParams new_RequestInfo].
  rewrite metadataForUpload_record. cbn [md_contentType md_fullPath default from_option id].
  split; [reflexivity|].
  split; [apply lookup_insert_eq|].
  split; [rewrite lookup_insert_ne by discriminate; apply lookup_insert_eq|].
  split; [do 2 (rewrite lookup_insert_ne by discriminate); apply lookup_insert_eq|].
  split; [do 3 (rewrite lookup_insert_ne by discriminate); apply lookup_insert_eq|].
  split; [reflexivity|apply lookup_singleton_eq].
Qed.

(** C10, as amended. The content type recorded in the upload metadata is
    resolved in a fixed priority order: the caller-supplied metadata's
    [contentType] if it is present and non-empty, else the blob's own type if
    non-empty, else the literal default ["application/octet-stream"];
    [determineContentType_] resolves in the same order. [metadataForUpload_]
    also always overwrites [fullPath] with the destination path and [size]
    with the blob's size, and leaves the other properties as they were. *)
Theorem upload_metadata_resolution location blob metadata :
  let m := metadataForUpload_ location blob metadata in
  md_contentType m = Some (contentType_if_nonempty metadata blob)
  /\ determineContentType_ metadata (Some blob) = contentType_if_nonempty metadata blob
  /\ md_fullPath m = Some (path location)
  /\ md_size m = Some (blob_size blob)
  /\ md_rest m = md_rest (default empty_metadata metadata).
Proof.
  destruct (metadataForUpload_fields location blob metadata) as (Hct & Hfp & Hsz & Hrest).
  repeat split; try assumption. apply determineContentType_resolved.
Qed.

(** ** Upload statuses *)

Lemma continueResumableUpload_handler_active service mappings blob status_ n xhr text :
  getResponseHeader xhr "X-Goog-Upload-Status" = HeaderIs (Some "active") ->
  continueResumableUpload_handler service mappings blob status_ n xhr text
  = ([], inr (mkStatus (current status_ + n) (blob_size blob) false None)).
Proof.
  intros Hh. unfold continueResumableUpload_handler.
  rewrite (checkResumeHeader_accepts xhr _ "active" Hh); [reflexivity|discriminate|].
  cbn. auto.
Qed.

Lemma continueResumableUpload_handler_final service mappings blob status_ n xhr text md :
  getResponseHeader xhr "X-Goog-Upload-Status" = HeaderIs (Some "final") ->
  fromResourceString service text mappings = Some md ->
  continueResumableUpload_handler service mappings blob status_ n xhr text
  = ([], inr (mkStatus (current status_ + n) (blob_size blob) true (Some md))).
Proof.
  intros Hh Hmd. unfold continueResumableUpload_handler.
  rewrite (checkResumeHeader_accepts xhr _ "final" Hh); [|discriminate|cbn; auto].
  cbn [bind String.eqb]. unfold metadataHandler. rewrite Hmd. reflexivity.
Qed.

(** Every status the chunk handler returns has [metadata] exactly when it is
    finalized, and its offset is the prior offset plus the bytes sent. *)
Lemma continueResumableUpload_handler_status service mappings blob status_ n xhr text log st :
  continueResumableUpload_handler service mappings blob status_ n xhr text = (log, inr st) ->
  current st = current status_ + n
  /\ total st = blob_size blob
  /\ (metadata st <> None <-> finalized st = true).
Proof.
  unfold continueResumableUpload_handler.
  destruct (checkResumeHeader_ xhr _) as [l [e|s]]; cbn [bind]; [discriminate|].
  destruct (String.eqb s "final").
  - unfold metadataHandler.
    destruct (fromResourceString service text mappings) as [m|]; cbn; [|discriminate].
    intros [= _ <-]. cbn. repeat split; congruence.
  - cbn. intros [= _ <-]. cbn. repeat split; congruence.
Qed.


(** ** The chunked upload scenario *)

Lemma continueResumableUpload_from location service url blob chunkSize mappings status cb
    cur n chunk :
  priorTotal blob status = blob_size blob ->
  priorCurrent status = cur ->
  (if chunkSize <=? 0 then blob_size blob - cur else Z.min (blob_size blob - cur) chunkSize) = n ->
  blob_slice blob cur (cur + n) = Some chunk ->
  continueResumableUpload location service url blob chunkSize mappings status cb
  = ([SliceCall blob cur (cur + n)],
     inr (chunkRequest location service url blob mappings cb cur n (blob_size blob - cur) chunk)).
Proof.
  intros Htot <- <- Hslice.
  rewrite (continueResumableUpload_sized _ _ _ _ _ _ _ _ Htot), Hslice. reflexivity.
Qed.

(** C3, as amended. For a byte source of exactly 614400 bytes (600 KiB)
    uploaded with chunk size 262144 (256 KiB), iterating
    [continueResumableUpload] from no prior status, each call made from the
    status that the previous request's handler decoded from the server's
    answer, produces three chunk requests with [X-Goog-Upload-Offset] 0, 262144
    and 524288. The first two carry the command ["upload"] and 262144 bytes
    each and leave the status not finalized; the last carries
    ["upload, finalize"] and the remaining 90112 bytes, and once the server
    answers it with ["final"] the status has [current = 614400],
    [total = 614400] and [finalized = true]. *)
Theorem chunked_upload_600KiB
    location service url blob mappings xhr1 text1 xhr2 text2 xhr3 text3 md :
  blob_size blob = 614400 ->
  (forall s e, 0 <= s <= e -> e <= 614400 -> is_Some (blob_slice blob s e)) ->
  getResponseHeader xhr1 "X-Goog-Upload-Status" = HeaderIs (Some "active") ->
  getResponseHeader xhr2 "X-Goog-Upload-Status" = HeaderIs (Some "active") ->
  getResponseHeader xhr3 "X-Goog-Upload-Status" = HeaderIs (Some "final") ->
  fromResourceString service text3 mappings = Some md ->
  let continue :=
    continueResumableUpload location service url blob RESUMABLE_UPLOAD_CHUNK_SIZE mappings in
  exists r1 st1 r2 st2 r3 st3,
    continue None None = ([SliceCall blob 0 262144], inr r1)
    /\ handler r1 xhr1 text1 = ([], inr st1)
    /\ continue (Some st1) None = ([SliceCall blob 262144 524288], inr r2)
    /\ handler r2 xhr2 text2 = ([], inr st2)
    /\ continue (Some st2) None = ([SliceCall blob 524288 614400], inr r3)
    /\ handler r3 xhr3 text3 = ([], inr st3)
    /\ headers r1 !! "X-Goog-Upload-Offset" = Some "0"
    /\ headers r2 !! "X-Goog-Upload-Offset" = Some "262144"
    /\ headers r3 !! "X-Goog-Upload-Offset" = Some "524288"
    /\ headers r1 !! "X-Goog-Upload-Command" = Some "upload"
    /\ headers r2 !! "X-Goog-Upload-Command" = Some "upload"
    /\ headers r3 !! "X-Goog-Upload-Command" = Some "upload, finalize"
    /\ payloadBytes (body r1) = Some 262144
    /\ payloadBytes (body r2) = Some 262144
    /\ payloadBytes (body r3) = Some 90112
    /\ finalized st1 = false /\ finalized st2 = false
    /\ current st3 = 614400 /\ total st3 = 614400 /\ finalized st3 = true.
Proof.
  intros Hsize Hslices Ha1 Ha2 Hf3 Hmd continue. subst continue.
  destruct (Hslices 0 262144) as [c1 Hc1]; [lia..|].
  destruct (Hslices 262144 524288) as [c2 Hc2]; [lia..|].
  destruct (Hslices 524288 614400) as [c3 Hc3]; [lia..|].
  assert (Hlen : forall s e c, 0 <= s <= e -> e <= 614400 -> blob_slice blob s e = Some c ->
                 payloadBytes (Some (BodyData (uploadData c))) = Some (e - s)).
  { intros s e c Hse He Hc. cbn [payloadBytes]. rewrite uploadData_length.
    f_equal. apply (blob_slice_size blob s e c); [exact Hse|rewrite Hsize; exact He|exact Hc]. }
  eexists _, _, _, _, _, _.
  split.
  { apply (continueResumableUpload_from _ _ _ _ _ _ None None 0 262144 c1);
      [reflexivity|reflexivity|rewrite Hsize; reflexivity|exact Hc1]. }
  split.
  { cbn [handler chunkRequest]. apply continueResumableUpload_handler_active. exact Ha1. }
  split.
  { apply (continueResumableUpload_from _ _ _ _ _ _ (Some _) None 262144 262144 c2);
      [reflexivity|reflexivity|rewrite Hsize; reflexivity|exact Hc2]. }
  split.
  { cbn [handler chunkRequest]. apply continueResumableUpload_handler_active. exact Ha2. }
  split.
  { apply (continueResumableUpload_from _ _ _ _ _ _ (Some _) None 524288 90112 c3);
      [reflexivity|reflexivity|rewrite Hsize; reflexivity|exact Hc3]. }
  split.
  { cbn [handler chunkRequest].
    apply (continueResumableUpload_handler_final _ _ _ _ _ _ _ md); [exact Hf3|exact Hmd]. }
  cbn [headers body chunkRequest current total finalized].
  rewrite !lookup_insert_eq.
  rewrite !(lookup_insert_ne _ "X-Goog-Upload-Command" "X-Goog-Upload-Offset") by discriminate.
  rewrite !lookup_insert_eq, !Hsize.
  rewrite (Hlen 0 262144 c1), (Hlen 262144 524288 c2), (Hlen 524288 614400 c3)
    by (lia || assumption).
  repeat split; reflexivity.
Qed.

(** One round of the chunk loop against a server that follows the protocol. *)
Lemma uploadLoop_round fuel metadataText md location service url blob chunkSize mappings
    status cur n chunk :
  priorTotal blob status = blob_size blob ->
  priorCurrent status = cur ->
  (if chunkSize <=? 0 then blob_size blob - cur else Z.min (blob_size blob - cur) chunkSize) = n ->
  blob_slice blob cur (cur + n) = Some chunk ->
  fromResourceString service metadataText mappings = Some md ->
  let request :=
    chunkRequest location service url blob mappings None cur n (blob_size blob - cur) chunk in
  let call := SliceCall blob cur (cur + n) in
  uploadLoop (S fuel) (protocolServer metadataText) location service url blob chunkSize
    mappings status
  = if n =? blob_size blob - cur then
      ([call], inr (Some ([request], mkStatus (cur + n) (blob_size blob) true (Some md))))
    else
      match uploadLoop fuel (protocolServer metadataText) location service url blob chunkSize
              mappings (Some (mkStatus (cur + n) (blob_size blob) false None)) with
      | (log, inl e) => (call :: log, inl e)
      | (log, inr rest) =>
        (call :: log,
         inr (match rest with
              | Some (requests, final) => Some (request :: requests, final)
              | None => None
              end))
      end.
Proof.
  intros Htot <- <- Hslice Hmd request call.
  cbn [uploadLoop].
  rewrite (continueResumableUpload_sized _ _ _ _ _ _ _ _ Htot). rewrite Hslice.
  fold request. cbn [bind].
  unfold protocolServer.
  replace (headers request !! "X-Goog-Upload-Command")
    with (Some (if (if chunkSize <=? 0 then blob_size blob - priorCurrent status
                    else Z.min (blob_size blob - priorCurrent status) chunkSize)
                   =? blob_size blob - priorCurrent status
                then "upload, finalize" else "upload"))
    by (symmetry; apply lookup_insert_eq).
  destruct (_ =? _).
  - cbn [String.eqb Ascii.eqb Bool.eqb andb].
    subst request. cbn [handler chunkRequest].
    rewrite (continueResumableUpload_handler_final _ _ _ _ _ _ _ md); [|reflexivity|exact Hmd].
    reflexivity.
  - cbn [String.eqb Ascii.eqb Bool.eqb andb].
    subst request. cbn [handler chunkRequest].
    rewrite continueResumableUpload_handler_active by reflexivity.
    cbn [finalized current]. unfold bind at 1.
    destruct (uploadLoop fuel _ _ _ _ _ _ _ _) as [log [e|rest]]; cbn [bind ret];
      rewrite ?app_nil_r; reflexivity.
Qed.

(** Under the chunk loop of the specification and a server that follows the
    protocol, the same upload issues exactly the three chunk requests above
    and then stops on the finalized status. *)
Corollary uploadLoop_600KiB
    fuel metadataText md location service url blob mappings :
  blob_size blob = 614400 ->
  (forall s e, 0 <= s <= e -> e <= 614400 -> is_Some (blob_slice blob s e)) ->
  fromResourceString service metadataText mappings = Some md ->
  (3 <= fuel)%nat ->
  exists r1 r2 r3 st,
    uploadLoop fuel (protocolServer metadataText) location service url blob
      RESUMABLE_UPLOAD_CHUNK_SIZE mappings None
    = ([SliceCall blob 0 262144; SliceCall blob 262144 524288; SliceCall blob 524288 614400],
       inr (Some ([r1; r2; r3], st)))
    /\ headers r1 !! "X-Goog-Upload-Offset" = Some "0"
    /\ headers r2 !! "X-Goog-Upload-Offset" = Some "262144"
    /\ headers r3 !! "X-Goog-Upload-Offset" = Some "524288"
    /\ headers r1 !! "X-Goog-Upload-Command" = Some "upload"
    /\ headers r2 !! "X-Goog-Upload-Command" = Some "upload"
    /\ headers r3 !! "X-Goog-Upload-Command" = Some "upload, finalize"
    /\ payloadBytes (body r1) = Some 262144
    /\ payloadBytes (body r2) = Some 262144
    /\ payloadBytes (body r3) = Some 90112
    /\ current st = 614400 /\ total st = 614400 /\ finalized st = true.
Proof.
  intros Hsize Hslices Hmd Hfuel.
  destruct fuel as [|[|[|fuel]]]; [lia..|].
  destruct (Hslices 0 262144) as [c1 Hc1]; [lia..|].
  destruct (Hslices 262144 524288) as [c2 Hc2]; [lia..|].
  destruct (Hslices 524288 614400) as [c3 Hc3]; [lia..|].
  assert (Hlen : forall s e c, 0 <= s <= e -> e <= 614400 -> blob_slice blob s e = Some c ->
                 payloadBytes (Some (BodyData (uploadData c))) = Some (e - s)).
  { intros s e c Hse He Hc. cbn [payloadBytes]. rewrite uploadData_length.
    f_equal. apply (blob_slice_size blob s e c); [exact Hse|rewrite Hsize; exact He|exact Hc]. }
  eexists _, _, _, _. split.
  { rewrite (uploadLoop_round _ _ md _ _ _ _ _ _ None 0 262144 c1);
      [|reflexivity|reflexivity|rewrite Hsize; reflexivity|exact Hc1|exact Hmd].
    replace (262144 =? blob_size blob - 0) with false by (rewrite Hsize; reflexivity).
    rewrite (uploadLoop_round _ _ md _ _ _ _ _ _ (Some _) 262144 262144 c2);
      [|reflexivity|reflexivity|rewrite Hsize; reflexivity|exact Hc2|exact Hmd].
    replace (262144 =? blob_size blob - 262144) with false by (rewrite Hsize; reflexivity).
    rewrite (uploadLoop_round _ _ md _ _ _ _ _ _ (Some _) 524288 90112 c3);
      [|reflexivity|reflexivity|rewrite Hsize; reflexivity|exact Hc3|exact Hmd].
    replace (90112 =? blob_size blob - 524288) with true by (rewrite Hsize; reflexivity).
    reflexivity. }
  cbn [headers body chunkRequest current total finalized].
  rewrite !lookup_insert_eq.
  rewrite !(lookup_insert_ne _ "X-Goog-Upload-Command" "X-Goog-Upload-Offset") by discriminate.
  rewrite !lookup_insert_eq, !Hsize.
  rewrite (Hlen 0 262144 c1), (Hlen 262144 524288 c2), (Hlen 524288 614400 c3)
    by (lia || assumption).
  repeat split; reflexivity.
Qed.

End Properties.

(** * Further properties of the request builders *)

Section MoreProperties.
Context `{!FbsBlobApi, !MetadataCodec, !UrlApi, !JsBuiltins, !DownloadUrlCodec}.

(** ** The chunk loop, one call at a time *)

(** X1. A chunk that the server accepts advances the confirmed offset: from a
    prior offset inside the blob, the status decoded by the handler of the
    request that [continueResumableUpload] built has a strictly larger
    [current], still at most [total]; the step is at most [chunkSize] when
    that is positive, and reaches [total] at once when it is not. *)
Theorem chunk_upload_advances
    location service url blob chunkSize mappings status cb log request xhr text log' st :
  0 <= priorCurrent status < blob_size blob ->
  continueResumableUpload location service url blob chunkSize mappings status cb
  = (log, inr request) ->
  handler request xhr text = (log', inr st) ->
  priorCurrent status < current st <= total st
  /\ total st = blob_size blob
  /\ (0 < chunkSize -> current st - priorCurrent status <= chunkSize)
  /\ (chunkSize <= 0 -> current st = total st).
Proof.
  intros Hcur Hreq Hst.
  destruct (continueResumableUpload_handler_of _ _ _ _ _ _ _ _ _ _ Hreq) as [_ Hh].
  rewrite Hh in Hst.
  destruct (continueResumableUpload_handler_status _ _ _ _ _ _ _ _ _ Hst) as (Hc & Ht & _).
  cbn [current] in Hc. rewrite Hc, Ht.
  destruct (Z.leb_spec chunkSize 0); repeat split; lia.
Qed.

(** X2. Consecutive chunk requests are contiguous: the request built from the
    status that the previous request's handler returned asks the byte source
    for a range that starts where the previous range ended, and carries that
    offset in [X-Goog-Upload-Offset]; no byte is sent twice and none is
    skipped, whatever the two chunk sizes are. *)
Theorem chunk_requests_contiguous
    location service url blob chunkSize chunkSize' mappings status cb cb'
    log1 r1 xhr text l st log2 r2 :
  continueResumableUpload location service url blob chunkSize mappings status cb
  = (log1, inr r1) ->
  handler r1 xhr text = (l, inr st) ->
  continueResumableUpload location service url blob chunkSize' mappings (Some st) cb'
  = (log2, inr r2) ->
  exists s e e',
    log1 = [SliceCall blob s e]
    /\ log2 = [SliceCall blob e e']
    /\ current st = e
    /\ headers r2 !! "X-Goog-Upload-Offset" = Some (pretty e).
Proof.
  intros Hr1 Hst Hr2.
  destruct (continueResumableUpload_handler_of _ _ _ _ _ _ _ _ _ _ Hr1) as [Htot1 Hh].
  rewrite Hh in Hst.
  destruct (continueResumableUpload_handler_status _ _ _ _ _ _ _ _ _ Hst) as (Hc & Ht & _).
  cbn [current] in Hc.
  rewrite (continueResumableUpload_sized _ _ _ _ _ _ _ _ Htot1) in Hr1.
  destruct (continueResumableUpload_handler_of _ _ _ _ _ _ _ _ _ _ Hr2) as [Htot2 _].
  rewrite (continueResumableUpload_sized _ _ _ _ _ _ _ _ Htot2) in Hr2.
  cbn [priorCurrent from_option] in Hr2.
  destruct (blob_slice blob (priorCurrent status) _); [|discriminate].
  destruct (blob_slice blob (current st) _); [|discriminate].
  injection Hr1 as <- _. injection Hr2 as <- <-.
  eexists _, _, _. split; [reflexivity|]. rewrite Hc.
  split; [reflexivity|]. split; [reflexivity|].
  cbn [headers chunkRequest].
  rewrite lookup_insert_ne by discriminate. apply lookup_insert_eq.
Qed.

(** X3. The chunk handler decides finalization by the server's upload-status
    header alone. On ["active"] the status is not finalized and has no
    metadata, and the response text is not decoded. On ["final"] the text is
    decoded as the object's metadata: if that succeeds the status is finalized
    and carries the metadata, and if it fails the handler throws the unknown
    error rather than returning a status. *)
Theorem chunk_handler_by_status_header
    location service url blob chunkSize mappings status cb log request xhr text :
  continueResumableUpload location service url blob chunkSize mappings status cb
  = (log, inr request) ->
  (getResponseHeader xhr "X-Goog-Upload-Status" = HeaderIs (Some "active") ->
   exists st, handler request xhr text = ([], inr st)
              /\ finalized st = false /\ metadata st = None)
  /\ (getResponseHeader xhr "X-Goog-Upload-Status" = HeaderIs (Some "final") ->
      forall md, fromResourceString service text mappings = Some md ->
      exists st, handler request xhr text = ([], inr st)
                 /\ finalized st = true /\ metadata st = Some md)
  /\ (getResponseHeader xhr "X-Goog-Upload-Status" = HeaderIs (Some "final") ->
      fromResourceString service text mappings = None ->
      handler request xhr text = ([], inl unknown)).
Proof.
  intros Hreq.
  destruct (continueResumableUpload_handler_of _ _ _ _ _ _ _ _ _ _ Hreq) as [_ ->].
  split; [|split].
  - intros Hh. eexists. split; [apply continueResumableUpload_handler_active; exact Hh|].
    split; reflexivity.
  - intros Hh md Hmd. eexists.
    split; [apply (continueResumableUpload_handler_final _ _ _ _ _ _ _ md); assumption|].
    split; reflexivity.
  - intros Hh Hmd. unfold continueResumableUpload_handler.
    rewrite (checkResumeHeader_accepts xhr _ "final" Hh); [|discriminate|cbn; auto].
    cbn [bind String.eqb]. unfold metadataHandler. rewrite Hmd. reflexivity.
Qed.

(** X4. A prior status that says the upload is already complete is not
    rejected. For a status with [current = total] equal to the blob's size,
    finalized or not, with or without metadata, [continueResumableUpload]
    asks the byte source for the empty range at the end of the blob and builds
    an ["upload, finalize"] request with that offset and a body of zero
    bytes. *)
Theorem continueResumableUpload_already_complete
    location service url blob chunkSize mappings (status : ResumableUploadStatus) cb chunk :
  total status = blob_size blob ->
  current status = total status ->
  blob_slice blob (total status) (total status) = Some chunk ->
  exists request,
    continueResumableUpload location service url blob chunkSize mappings (Some status) cb
    = ([SliceCall blob (total status) (total status)], inr request)
    /\ headers request !! "X-Goog-Upload-Command" = Some "upload, finalize"
    /\ headers request !! "X-Goog-Upload-Offset" = Some (pretty (total status))
    /\ payloadBytes (body request) = Some 0.
Proof.
  intros Htot Hcur Hslice.
  pose proof (blob_size_nonneg blob) as Hsize.
  rewrite (continueResumableUpload_from location service url blob chunkSize mappings
             (Some status) cb (total status) 0 chunk).
  - eexists. split; [rewrite Z.add_0_r; reflexivity|].
    cbn [headers body payloadBytes chunkRequest].
    split.
    { rewrite lookup_insert_eq.
      replace (0 =? blob_size blob - total status) with true
        by (symmetry; apply Z.eqb_eq; lia).
      reflexivity. }
    split; [rewrite lookup_insert_ne by discriminate; apply lookup_insert_eq|].
    rewrite uploadData_length.
    rewrite (blob_slice_size blob (total status) (total status) chunk); [f_equal; lia|lia|lia|].
    exact Hslice.
  - exact Htot.
  - exact Hcur.
  - rewrite Htot, Z.sub_diag. destruct (Z.leb_spec chunkSize 0); lia.
  - rewrite Z.add_0_r. exact Hslice.
Qed.

(** X5. [continueResumableUpload] has three outcomes and no other: the
    server-file-wrong-size error with no call to the byte source, when the
    prior total differs from the blob's size; otherwise exactly one slice
    call, followed by the cannot-slice-blob error when the slice is null and
    by a request whose body is that slice when it is not. *)
Theorem continueResumableUpload_outcomes
    location service url blob chunkSize mappings status cb :
  let result :=
    continueResumableUpload location service url blob chunkSize mappings status cb in
  (priorTotal blob status <> blob_size blob /\ result = ([], inl serverFileWrongSize))
  \/ (priorTotal blob status = blob_size blob
      /\ exists s e,
           calls result = [SliceCall blob s e]
           /\ ((blob_slice blob s e = None /\ outcome result = inl cannotSliceBlob)
               \/ (exists chunk request,
                     blob_slice blob s e = Some chunk
                     /\ outcome result = inr request
                     /\ body request = Some (BodyData (uploadData chunk))))).
Proof.
  intros result. subst result.
  destruct (Z.eq_dec (priorTotal blob status) (blob_size blob)) as [Heq|Hne].
  - right. split; [exact Heq|].
    rewrite (continueResumableUpload_sized _ _ _ _ _ _ _ _ Heq).
    eexists _, _. split; [reflexivity|]. cbn [outcome snd].
    destruct (blob_slice blob _ _) as [chunk|].
    + right. eexists _, _. repeat split; reflexivity.
    + left. split; reflexivity.
  - left. split; [exact Hne|]. apply continueResumableUpload_mismatch. exact Hne.
Qed.

(** X6. There is no bounds check on the prior offset. From an offset beyond
    the total (and within the integers that a JavaScript number holds
    exactly), [continueResumableUpload] asks the byte source for the backwards
    range from that offset to the total, marks the request
    ["upload, finalize"], and the status its handler returns has
    [current = total]. *)
Theorem continueResumableUpload_offset_beyond_total
    location service url blob chunkSize mappings status cb :
  priorTotal blob status = blob_size blob ->
  blob_size blob < priorCurrent status <= MAX_SAFE_INTEGER ->
  let result :=
    continueResumableUpload location service url blob chunkSize mappings status cb in
  calls result = [SliceCall blob (priorCurrent status) (blob_size blob)]
  /\ forall request,
       outcome result = inr request ->
       headers request !! "X-Goog-Upload-Command" = Some "upload, finalize"
       /\ headers request !! "X-Goog-Upload-Offset" = Some (pretty (priorCurrent status))
       /\ forall xhr text log st,
            handler request xhr text = (log, inr st) -> current st = total st.
Proof.
  intros Htot [Hbeyond _] result. subst result.
  rewrite (continueResumableUpload_sized _ _ _ _ _ _ _ _ Htot).
  set (cur := priorCurrent status) in *.
  assert (Hn : (if chunkSize <=? 0 then blob_size blob - cur
                else Z.min (blob_size blob - cur) chunkSize) = blob_size blob - cur)
    by (destruct (Z.leb_spec chunkSize 0); lia).
  rewrite Hn. replace (cur + (blob_size blob - cur)) with (blob_size blob) by lia.
  cbn [calls outcome fst snd]. split; [reflexivity|].
  intros request Hreq.
  destruct (blob_slice blob cur (blob_size blob)); [|discriminate].
  injection Hreq as <-. cbn [headers handler chunkRequest].
  split; [rewrite lookup_insert_eq, Z.eqb_refl; reflexivity|].
  split; [rewrite lookup_insert_ne by discriminate; apply lookup_insert_eq|].
  intros xhr text log st Hst.
  destruct (continueResumableUpload_handler_status _ _ _ _ _ _ _ _ _ Hst) as (Hc & Ht & _).
  cbn [current] in Hc. lia.
Qed.

(** ** Response handlers *)

(** X7. The handler of the start request returns the session URL exactly when
    the upload status is ["active"] and the [X-Goog-Upload-URL] header is
    there: it then returns the header's value as it is, the empty string
    included. Every other response makes it throw the unknown error, and no
    other error. *)
Theorem start_handler_returns_session_url
    service location mappings blob metadata xhr text :
  let result :=
    handler (createResumableUpload service location mappings blob metadata) xhr text in
  (forall u,
     getResponseHeader xhr "X-Goog-Upload-Status" = HeaderIs (Some "active") ->
     getResponseHeader xhr "X-Goog-Upload-URL" = HeaderIs (Some u) ->
     result = ([], inr u))
  /\ (forall log u,
       result = (log, inr u) ->
       getResponseHeader xhr "X-Goog-Upload-Status" = HeaderIs (Some "active")
       /\ getResponseHeader xhr "X-Goog-Upload-URL" = HeaderIs (Some u))
  /\ (forall log e, result = (log, inl e) -> log = [] /\ e = unknown).
Proof.
  cbn [createResumableUpload handler set_errorHandler set_body set_headers
       set_urlParams new_RequestInfo].
  unfold createResumableUpload_handler.
  split; [|split].
  - intros u Hst Hurl.
    rewrite (checkResumeHeader_accepts xhr None "active" Hst); [|discriminate|cbn; auto].
    unfold tryGetResponseHeader. rewrite Hurl. reflexivity.
  - intros log u.
    destruct (checkResumeHeader_ xhr None) as [l [e|s]] eqn:Hchk; cbn [bind]; [discriminate|].
    destruct (checkResumeHeader_returns _ _ _ _ Hchk) as (-> & Hst & _ & Hin).
    destruct Hin as [<-|[]].
    unfold tryGetResponseHeader.
    destruct (getResponseHeader xhr "X-Goog-Upload-URL") as [|[v|]];
      cbn; [discriminate| |discriminate].
    intros [= _ <-]. split; [exact Hst|reflexivity].
  - intros log e.
    destruct (checkResumeHeader_ xhr None) as [l [e'|s]] eqn:Hchk; cbn [bind].
    + unfold checkResumeHeader_, tryGetResponseHeader in Hchk.
      destruct (getResponseHeader xhr "X-Goog-Upload-Status") as [|[h|]];
        cbn [bind ret handlerCheck negb throw] in Hchk.
      * injection Hchk as <- <-. intros [= <- <-]. split; reflexivity.
      * destruct (truthy (Some h) && _); cbn in Hchk; [discriminate|].
        injection Hchk as <- <-. intros [= <- <-]. split; reflexivity.
      * injection Hchk as <- <-. intros [= <- <-]. split; reflexivity.
    + destruct (checkResumeHeader_returns _ _ _ _ Hchk) as (-> & _).
      unfold tryGetResponseHeader.
      destruct (getResponseHeader xhr "X-Goog-Upload-URL") as [|[v|]]; cbn;
        [|discriminate|]; intros [= <- <-]; split; reflexivity.
Qed.

Lemma checkResumeHeader_error xhr allowed log e :
  checkResumeHeader_ xhr allowed = (log, inl e) -> log = [] /\ e = unknown.
Proof.
  unfold checkResumeHeader_, tryGetResponseHeader.
  destruct (getResponseHeader xhr "X-Goog-Upload-Status") as [|[h|]];
    cbn [bind ret handlerCheck negb throw].
  - intros [= <- <-]. split; reflexivity.
  - destruct (truthy (Some h) && _); cbn; [discriminate|].
    intros [= <- <-]. split; reflexivity.
  - intros [= <- <-]. split; reflexivity.
Qed.

(** X8. The query request carries the command ["query"] and no body. Its
    handler returns a status when the upload status is ["active"] or
    ["final"] and [X-Goog-Upload-Size-Received] is a non-empty string that
    parses to a number: the number becomes [current], the blob's size becomes
    [total]. When the size header is missing, empty or not a number, the
    handler throws the unknown error; it throws no other error. *)
Theorem query_handler_outcomes service location url blob xhr text :
  let request := getResumableUploadStatus service location url blob in
  headers request !! "X-Goog-Upload-Command" = Some "query"
  /\ body request = None
  /\ (forall s sz n,
       getResponseHeader xhr "X-Goog-Upload-Status" = HeaderIs (Some s) ->
       s = "active" \/ s = "final" ->
       getResponseHeader xhr "X-Goog-Upload-Size-Received" = HeaderIs (Some sz) ->
       sz <> "" ->
       Number_ sz = Some n ->
       handler request xhr text
       = ([], inr (mkStatus n (blob_size blob) (String.eqb s "final") None)))
  /\ ((forall sz,
        getResponseHeader xhr "X-Goog-Upload-Size-Received" = HeaderIs (Some sz) ->
        sz = "" \/ Number_ sz = None) ->
      handler request xhr text = ([], inl unknown))
  /\ (forall log e, handler request xhr text = (log, inl e) -> log = [] /\ e = unknown).
Proof.
  cbn [getResumableUploadStatus handler headers body set_errorHandler set_headers
       new_RequestInfo].
  split; [apply lookup_singleton_eq|]. split; [reflexivity|].
  unfold getResumableUploadStatus_handler.
  split; [|split].
  - intros s sz n Hst Hs Hsz Hne Hnum.
    rewrite (checkResumeHeader_accepts xhr _ s Hst);
      [|destruct Hs as [->| ->]; discriminate|destruct Hs as [->| ->]; cbn; auto].
    unfold tryGetResponseHeader. rewrite Hsz. cbn [bind ret].
    destruct sz as [|c sz]; [congruence|].
    cbn [truthy negb bind ret default from_option id]. rewrite Hnum. reflexivity.
  - intros Hbad.
    destruct (checkResumeHeader_ xhr _) as [l [e|s]] eqn:Hchk; cbn [bind].
    + destruct (checkResumeHeader_error _ _ _ _ Hchk) as [-> ->]. reflexivity.
    + destruct (checkResumeHeader_returns _ _ _ _ Hchk) as (-> & _).
      unfold tryGetResponseHeader.
      destruct (getResponseHeader xhr "X-Goog-Upload-Size-Received") as [|[sz|]];
        [reflexivity| |reflexivity].
      destruct (Hbad sz eq_refl) as [->|Hnan]; [reflexivity|].
      destruct sz as [|c sz]; [reflexivity|].
      cbn [bind ret truthy negb default from_option id]. rewrite Hnan. reflexivity.
  - intros log e.
    destruct (checkResumeHeader_ xhr _) as [l [e'|s]] eqn:Hchk; cbn [bind].
    + destruct (checkResumeHeader_error _ _ _ _ Hchk) as [-> ->].
      intros [= <- <-]. split; reflexivity.
    + destruct (checkResumeHeader_returns _ _ _ _ Hchk) as (-> & _).
      unfold tryGetResponseHeader.
      destruct (getResponseHeader xhr "X-Goog-Upload-Size-Received") as [|[sz|]];
        cbn [bind ret handlerCheck negb throw];
        [intros [= <- <-]; split; reflexivity| |intros [= <- <-]; split; reflexivity].
      destruct sz as [|c sz]; cbn [truthy negb bind ret handlerCheck throw default from_option id];
        [intros [= <- <-]; split; reflexivity|].
      destruct (Number_ (String c sz)); cbn; [discriminate|].
      intros [= <- <-]. split; reflexivity.
Qed.

(** ** Which request maps which error *)

(** X9. The object-level requests ([getMetadata], [getDownloadUrl],
    [updateMetadata]) go to the object's full URL within the operation retry
    time, and a 404 answer to any of them is mapped to object-not-found for the
    location's path, with the original error's server response. *)
Theorem object_requests_map_404 service location mappings metadata xhr err :
  getStatus xhr = 404 ->
  let objectUrl := makeUrl (fullServerUrl location) (host service) (_protocol service) in
  (url (getMetadata service location mappings) = objectUrl
   /\ timeout (getMetadata service location mappings) = maxOperationRetryTime service
   /\ exists h, errorHandler (getMetadata service location mappings) = Some h
                /\ h xhr err
                   = set_serverResponse (objectNotFound (path location)) (serverResponse err))
  /\ (url (getDownloadUrl service location mappings) = objectUrl
      /\ timeout (getDownloadUrl service location mappings) = maxOperationRetryTime service
      /\ exists h, errorHandler (getDownloadUrl service location mappings) = Some h
                   /\ h xhr err
                      = set_serverResponse (objectNotFound (path location)) (serverResponse err))
  /\ (url (updateMetadata service location metadata mappings) = objectUrl
      /\ timeout (updateMetadata service location metadata mappings)
         = maxOperationRetryTime service
      /\ exists h, errorHandler (updateMetadata service location metadata mappings) = Some h
                   /\ h xhr err
                      = set_serverResponse (objectNotFound (path location)) (serverResponse err)).
Proof.
  intros H404 objectUrl.
  assert (Hmap : objectErrorHandler location xhr err
                 = set_serverResponse (objectNotFound (path location)) (serverResponse err)).
  { unfold objectErrorHandler. rewrite H404. reflexivity. }
  repeat split; try reflexivity; eexists; (split; [reflexivity|exact Hmap]).
Qed.

(** X10. The object-level requests decode the response text as metadata. When
    the text does not decode they throw the unknown error. When it does,
    [getMetadata] and [updateMetadata] return the metadata, and
    [getDownloadUrl] returns the download URL derived from it, which may be
    null: a missing download URL is a result, not an error. [updateMetadata]
    is a PATCH whose body is the serialized metadata. *)
Theorem object_request_handlers_decode service location mappings metadata xhr text :
  (fromResourceString service text mappings = None ->
   handler (getMetadata service location mappings) xhr text = ([], inl unknown)
   /\ handler (getDownloadUrl service location mappings) xhr text = ([], inl unknown)
   /\ handler (updateMetadata service location metadata mappings) xhr text
      = ([], inl unknown))
  /\ (forall md,
       fromResourceString service text mappings = Some md ->
       handler (getMetadata service location mappings) xhr text = ([], inr md)
       /\ handler (getDownloadUrl service location mappings) xhr text
          = ([], inr (downloadUrlFromResourceString md text (host service) (_protocol service)))
       /\ handler (updateMetadata service location metadata mappings) xhr text
          = ([], inr md))
  /\ method (updateMetadata service location metadata mappings) = "PATCH"
  /\ body (updateMetadata service location metadata mappings)
     = Some (BodyString (toResourceString metadata mappings)).
Proof.
  cbn [getMetadata getDownloadUrl updateMetadata handler method body set_errorHandler
       set_body set_headers new_RequestInfo].
  unfold metadataHandler, downloadUrlHandler.
  split; [|split; [|split; reflexivity]].
  - intros ->. repeat split; reflexivity.
  - intros md ->. repeat split; reflexivity.
Qed.

(** X11. Every upload request (the start request, the query request, and any
    request that [continueResumableUpload] or [multipartUpload] returns) is a
    POST within the upload retry time whose error handler is
    [sharedErrorHandler] for the location; under that handler a 404 answer is
    not turned into object-not-found, the original error comes back
    unchanged. *)
Theorem upload_requests_keep_404
    random service location mappings url blob chunkSize metadata status cb xhr err :
  getStatus xhr = 404 ->
  sharedErrorHandler location xhr err = err
  /\ (method (createResumableUpload service location mappings blob metadata) = "POST"
      /\ timeout (createResumableUpload service location mappings blob metadata)
         = maxUploadRetryTime service
      /\ errorHandler (createResumableUpload service location mappings blob metadata)
         = Some (sharedErrorHandler location))
  /\ (method (getResumableUploadStatus service location url blob) = "POST"
      /\ timeout (getResumableUploadStatus service location url blob)
         = maxUploadRetryTime service
      /\ errorHandler (getResumableUploadStatus service location url blob)
         = Some (sharedErrorHandler location))
  /\ (forall log request,
       continueResumableUpload location service url blob chunkSize mappings status cb
       = (log, inr request) ->
       method request = "POST"
       /\ timeout request = maxUploadRetryTime service
       /\ errorHandler request = Some (sharedErrorHandler location))
  /\ (forall log request,
       multipartUpload random service location mappings blob metadata = (log, inr request) ->
       method request = "POST"
       /\ timeout request = maxUploadRetryTime service
       /\ errorHandler request = Some (sharedErrorHandler location)).
Proof.
  intros H404.
  split.
  { unfold sharedErrorHandler. rewrite H404. cbn. apply set_serverResponse_id. }
  split; [repeat split; reflexivity|].
  split; [repeat split; reflexivity|].
  split.
  - intros log request Hreq.
    destruct (continueResumableUpload_handler_of _ _ _ _ _ _ _ _ _ _ Hreq) as [Htot _].
    rewrite (continueResumableUpload_sized _ _ _ _ _ _ _ _ Htot) in Hreq.
    destruct (blob_slice blob _ _); [|discriminate].
    injection Hreq as _ <-. repeat split; reflexivity.
  - intros log request. unfold multipartUpload, call_getBlob, bind.
    destruct (getBlob _ blob _); cbn; [|discriminate].
    intros [= _ <-]. repeat split; reflexivity.
Qed.

(** ** Upload metadata *)

Lemma js_or_not_empty (s : option string) (d : string) : d <> "" -> js_or s d <> "".
Proof. intros Hd. destruct s as [[|c s]|]; cbn; congruence. Qed.

Lemma content_type_nonempty_aux location blob metadata :
  exists c, md_contentType (metadataForUpload_ location blob metadata) = Some c /\ c <> "".
Proof.
  destruct (metadataForUpload_fields location blob metadata) as [Hct _].
  eexists. split; [exact Hct|].
  rewrite <- determineContentType_resolved.
  unfold determineContentType_. apply js_or_not_empty, js_or_not_empty. discriminate.
Qed.

(** X12. The resolved content type is never the empty string:
    [determineContentType_] returns a non-empty string for every metadata and
    blob, null ones included, and the [contentType] that [metadataForUpload_]
    records is present and non-empty. *)
Theorem content_type_never_empty location blob metadata (blob' : option FbsBlob) :
  determineContentType_ metadata blob' <> ""
  /\ exists c, md_contentType (metadataForUpload_ location blob metadata) = Some c /\ c <> "".
Proof.
  split.
  - unfold determineContentType_. apply js_or_not_empty, js_or_not_empty. discriminate.
  - apply content_type_nonempty_aux.
Qed.

(** X13. [metadataForUpload_] is idempotent, and a content type once recorded
    stays: preparing already prepared metadata for another location and
    another blob replaces [fullPath] and [size] but keeps the content type and
    the other properties. *)
Theorem metadataForUpload_again location blob location' blob' metadata :
  let once := metadataForUpload_ location blob metadata in
  let twice := metadataForUpload_ location' blob' (Some once) in
  metadataForUpload_ location blob (Some once) = once
  /\ md_contentType twice = md_contentType once
  /\ md_rest twice = md_rest once
  /\ md_fullPath twice = Some (path location')
  /\ md_size twice = Some (blob_size blob').
Proof.
  intros once twice.
  assert (Hkeep : forall l b,
            metadataForUpload_ l b (Some once)
            = mkMetadata (Some (path l)) (Some (blob_size b))
                (md_contentType once) (md_rest once)).
  { intros l b. subst once. unfold metadataForUpload_ at 1.
    destruct (content_type_nonempty_aux location blob metadata) as (c & Hc & Hne).
    cbn [default from_option id md_size md_contentType md_rest md_fullPath].
    rewrite Hc. destruct c as [|a c]; [congruence|]. reflexivity. }
  subst twice. rewrite !Hkeep. cbn [md_contentType md_rest md_fullPath md_size].
  split; [|repeat split; reflexivity].
  destruct (metadataForUpload_fields location blob metadata) as (_ & Hfp & Hsz & _).
  fold once in Hfp, Hsz. rewrite <- Hfp, <- Hsz. destruct once; reflexivity.
Qed.

(** ** Multipart uploads and listing *)


(** X15. The parameters that [list] sends. [prefix] is always sent: empty at
    the root, the path followed by a slash elsewhere. [delimiter] and
    [pageToken] are sent only when they are non-empty strings, and
    [maxResults] only when it is a number other than 0; a null, an empty
    string or a 0 leaves the parameter out. Nothing else is sent. *)
Theorem list_urlParams_sent isRoot location delimiter pageToken maxResults :
  let params := list_urlParams isRoot location delimiter pageToken maxResults in
  params !! "prefix" = Some (ParamString (if isRoot then "" else path location +:+ "/"))
  /\ params !! "delimiter"
     = match delimiter with
       | Some d => if String.eqb d "" then None else Some (ParamString d)
       | None => None
       end
  /\ params !! "pageToken"
     = match pageToken with
       | Some t => if String.eqb t "" then None else Some (ParamString t)
       | None => None
       end
  /\ params !! "maxResults"
     = match maxResults with
       | Some n => if n =? 0 then None else Some (ParamNumber n)
       | None => None
       end
  /\ forall k,
       k <> "prefix" -> k <> "delimiter" -> k <> "pageToken" -> k <> "maxResults" ->
       params !! k = None.
Proof.
  intros params. subst params. unfold list_urlParams.
  destruct isRoot, delimiter as [[|c d]|], pageToken as [[|c' t]|],
    maxResults as [n|]; try destruct (Z.eqb_spec n 0);
    cbn [truthy andb negb String.eqb];
    (repeat split; [..|intros k ? ? ? ?]; simplify_map_eq; reflexivity).
Qed.

End MoreProperties.

(** ** The properties on concrete inputs *)

Lemma continueResumableUpload_chunk_request_witness :
  exists request,
    continueResumableUpload testLocation testService "https://host/session"
      (zeros 614400 "" true) 262144 testMappings (Some (mkStatus 262144 614400 false None)) None
    = ([SliceCall (zeros 614400 "" true) 262144 524288], inr request)
    /\ payloadBytes (body request) = Some 262144
    /\ headers request !! "X-Goog-Upload-Offset" = Some "262144"
    /\ headers request !! "X-Goog-Upload-Command" = Some "upload".
Proof.
  destruct (continueResumableUpload_chunk_request testLocation testService
              "https://host/session" (zeros 614400 "" true) 262144 testMappings
              (Some (mkStatus 262144 614400 false None)) None
              (zerosAt 262144 262144))
    as (request & Hreq & _ & Hlen & Hoff & _ & Hcmd).
  - reflexivity.
  - cbn. lia.
  - reflexivity.
  - exists request. split; [exact Hreq|]. split; [exact Hlen|]. split; [exact Hoff|].
    apply Hcmd. cbn. lia.
Defined.

Lemma continueResumableUpload_wrong_size_witness :
  1000 <> blob_size (zeros 900 "" true)
  /\ continueResumableUpload testLocation testService "https://host/session"
       (zeros 900 "" true) 262144 testMappings (Some (mkStatus 0 1000 false None)) None
     = ([], inl serverFileWrongSize).
Proof.
  split; [cbn; lia|].
  apply (continueResumableUpload_wrong_size testLocation testService "https://host/session"
           (zeros 900 "" true) 262144 testMappings (mkStatus 0 1000 false None) None).
  cbn. lia.
Defined.

Lemma continueResumableUpload_empty_blob_witness :
  exists request,
    continueResumableUpload testLocation testService "https://host/session"
      (zeros 0 "" true) 262144 testMappings None None
    = ([SliceCall (zeros 0 "" true) 0 0], inr request)
    /\ headers request !! "X-Goog-Upload-Command" = Some "upload, finalize"
    /\ headers request !! "X-Goog-Upload-Offset" = Some "0"
    /\ payloadBytes (body request) = Some 0.
Proof.
  destruct (continueResumableUpload_empty_blob testLocation testService
              "https://host/session" (zeros 0 "" true) 262144 testMappings None (zerosAt 0 0))
    as (request & Hreq & Hcmd & Hoff & _ & Hlen).
  - reflexivity.
  - reflexivity.
  - exists request. auto.
Defined.

Lemma chunked_upload_600KiB_witness :
  exists r1 st1 r2 st2 r3 st3,
    continueResumableUpload testLocation testService "https://host/session"
      (zeros 614400 "" true) RESUMABLE_UPLOAD_CHUNK_SIZE testMappings None None
    = ([SliceCall (zeros 614400 "" true) 0 262144], inr r1)
    /\ handler r1 activeResponse "" = ([], inr st1)
    /\ continueResumableUpload testLocation testService "https://host/session"
         (zeros 614400 "" true) RESUMABLE_UPLOAD_CHUNK_SIZE testMappings (Some st1) None
       = ([SliceCall (zeros 614400 "" true) 262144 524288], inr r2)
    /\ handler r2 activeResponse "" = ([], inr st2)
    /\ continueResumableUpload testLocation testService "https://host/session"
         (zeros 614400 "" true) RESUMABLE_UPLOAD_CHUNK_SIZE testMappings (Some st2) None
       = ([SliceCall (zeros 614400 "" true) 524288 614400], inr r3)
    /\ handler r3 finalResponse "dir/file.bin" = ([], inr st3)
    /\ headers r3 !! "X-Goog-Upload-Offset" = Some "524288"
    /\ headers r3 !! "X-Goog-Upload-Command" = Some "upload, finalize"
    /\ payloadBytes (body r3) = Some 90112
    /\ current st3 = 614400 /\ total st3 = 614400 /\ finalized st3 = true.
Proof.
  destruct (chunked_upload_600KiB testLocation testService "https://host/session"
              (zeros 614400 "" true) testMappings
              activeResponse "" activeResponse "" finalResponse "dir/file.bin"
              (mkMetadata (Some "dir/file.bin") None None ∅))
    as (r1 & st1 & r2 & st2 & r3 & st3 & Hr1 & Hs1 & Hr2 & Hs2 & Hr3 & Hs3
        & _ & _ & Ho3 & _ & _ & Hc3 & _ & _ & Hp3 & _ & _ & Hcur & Htot & Hfin).
  - reflexivity.
  - intros s e _ _. eexists. reflexivity.
  - reflexivity.
  - reflexivity.
  - reflexivity.
  - reflexivity.
  - exists r1, st1, r2, st2, r3, st3. auto 15.
Defined.

Example uploadLoop_600KiB_zeros :
  exists r1 r2 r3 st,
    uploadLoop 3 (protocolServer "dir/file.bin") testLocation testService
      "https://host/session" (zeros 614400 "" true) RESUMABLE_UPLOAD_CHUNK_SIZE testMappings None
    = ([SliceCall (zeros 614400 "" true) 0 262144;
        SliceCall (zeros 614400 "" true) 262144 524288;
        SliceCall (zeros 614400 "" true) 524288 614400],
       inr (Some ([r1; r2; r3], st)))
    /\ payloadBytes (body r3) = Some 90112
    /\ current st = 614400 /\ total st = 614400 /\ finalized st = true.
Proof.
  destruct (uploadLoop_600KiB 3 "dir/file.bin"
              (mkMetadata (Some "dir/file.bin") None None ∅)
              testLocation testService "https://host/session" (zeros 614400 "" true)
              testMappings)
    as (r1 & r2 & r3 & st & Hrun & _ & _ & _ & _ & _ & _ & _ & _ & Hp3 & Hcur & Htot & Hfin).
  - reflexivity.
  - intros s e _ _. eexists. reflexivity.
  - reflexivity.
  - lia.
  - exists r1, r2, r3, st. auto 10.
Qed.

Lemma upload_status_header_checked_witness :
  checkResumeHeader_ cancelledResponse None = ([], inl unknown)
  /\ checkResumeHeader_ cancelledResponse (Some ["active"; "final"]) = ([], inl unknown)
  /\ handler (createResumableUpload testService testLocation testMappings (zeros 10 "" true) None)
       cancelledResponse "" = ([], inl unknown)
  /\ handler (createResumableUpload testService testLocation testMappings (zeros 10 "" true) None)
       activeResponse "" = ([], inl unknown)
  /\ handler (chunkRequest testLocation testService "https://host/session" (zeros 10 "" true)
                testMappings None 0 10 10 (zerosAt 0 10))
       cancelledResponse "" = ([], inl unknown)
  /\ handler (getResumableUploadStatus testService testLocation "https://host/session"
                (zeros 10 "" true))
       cancelledResponse "" = ([], inl unknown)
  /\ In "active" ["active"; "final"].
Proof.
  destruct (upload_status_header_checked testService testLocation testMappings
              "https://host/session" (zeros 10 "" true) None 0 None None cancelledResponse "")
    as (Hcheck & _ & Hstart & _ & Hchunk & Hquery).
  destruct (upload_status_header_checked testService testLocation testMappings
              "https://host/session" (zeros 10 "" true) None 0 None None activeResponse "")
    as (_ & Hret & _ & Hurl & _ & _).
  split; [apply (Hcheck None); reflexivity|].
  split; [apply (Hcheck (Some ["active"; "final"])); reflexivity|].
  split; [apply Hstart; reflexivity|].
  split; [apply Hurl; intros u; discriminate|].
  split.
  { apply (Hchunk eq_refl [SliceCall (zeros 10 "" true) 0 10]). reflexivity. }
  split; [apply Hquery; reflexivity|].
  apply (Hret (Some ["active"; "final"]) [] "active"). reflexivity.
Defined.

Lemma error_handlers_by_status_witness :
  code (sharedErrorHandler testLocation (response 401 appCheckText ∅) serverError)
  = UNAUTHORIZED_APP
  /\ code (sharedErrorHandler testLocation (response 401 "expired" ∅) serverError)
     = UNAUTHENTICATED
  /\ code (sharedErrorHandler testLocation (response 402 "" ∅) serverError)
     = QUOTA_EXCEEDED "b"
  /\ code (objectErrorHandler testLocation (response 403 "" ∅) serverError)
     = UNAUTHORIZED "dir/file.bin"
  /\ code (objectErrorHandler testLocation (response 404 "" ∅) serverError)
     = OBJECT_NOT_FOUND "dir/file.bin"
  /\ sharedErrorHandler testLocation (response 404 "" ∅) serverError = serverError
  /\ objectErrorHandler testLocation (response 500 "" ∅) serverError = serverError.
Proof.
  split.
  { apply (error_handlers_by_status testLocation (response 401 appCheckText ∅) serverError);
      reflexivity. }
  split.
  { apply (proj1 (proj2 (error_handlers_by_status testLocation (response 401 "expired" ∅)
                            serverError))); reflexivity. }
  split.
  { apply (proj1 (proj2 (proj2 (error_handlers_by_status testLocation (response 402 "" ∅)
                                   serverError)))); reflexivity. }
  split.
  { apply (proj1 (proj2 (proj2 (proj2 (error_handlers_by_status testLocation
                                          (response 403 "" ∅) serverError))))); reflexivity. }
  destruct (error_handlers_by_status testLocation (response 404 "" ∅) serverError)
    as (_ & _ & _ & _ & H404 & _).
  destruct (H404 eq_refl) as [Hobj Hshared].
  split; [exact Hobj|]. split; [exact Hshared|].
  destruct (error_handlers_by_status testLocation (response 500 "" ∅) serverError)
    as (_ & _ & _ & _ & _ & Hother & _).
  apply Hother; cbn; lia.
Defined.

Lemma null_slice_is_cannot_slice_witness :
  outcome (continueResumableUpload (H := flagBlobApi) testLocation testService
             "https://host/session" unsliceable 4 testMappings None None)
  = inl cannotSliceBlob
  /\ outcome (multipartUpload (H := flagBlobApi) fixedRandom testService testLocation
                testMappings unassemblable None)
     = inl cannotSliceBlob.
Proof.
  split.
  - destruct (null_slice_is_cannot_slice (H := flagBlobApi) fixedRandom testLocation
                testService "https://host/session" unsliceable 4 testMappings None None None)
      as (Hslice & _).
    apply (Hslice unsliceable 0 4); [left; reflexivity|reflexivity].
  - destruct (null_slice_is_cannot_slice (H := flagBlobApi) fixedRandom testLocation
                testService "https://host/session" unassemblable 4 testMappings None None None)
      as (_ & Hbody & _).
    eapply Hbody; [left; reflexivity|reflexivity].
Defined.


(** ** Where the specification and the code part *)

(** C3. On a 614400-byte source with chunk size 262144, the third chunk
    request, built from the status after two chunks, starts at offset 524288,
    carries ["upload, finalize"] and has the 90112 bytes that remain, not
    89216. *)
Lemma chunked_upload_last_chunk_counterexample :
  exists r1 st1 r2 st2 r3,
    outcome (continueResumableUpload testLocation testService "https://host/session"
               (zeros 614400 "" true) RESUMABLE_UPLOAD_CHUNK_SIZE testMappings None None)
    = inr r1
    /\ outcome (handler r1 activeResponse "") = inr st1
    /\ outcome (continueResumableUpload testLocation testService "https://host/session"
                  (zeros 614400 "" true) RESUMABLE_UPLOAD_CHUNK_SIZE testMappings
                  (Some st1) None)
       = inr r2
    /\ outcome (handler r2 activeResponse "") = inr st2
    /\ outcome (continueResumableUpload testLocation testService "https://host/session"
                  (zeros 614400 "" true) RESUMABLE_UPLOAD_CHUNK_SIZE testMappings
                  (Some st2) None)
       = inr r3
    /\ headers r3 !! "X-Goog-Upload-Offset" = Some "524288"
    /\ headers r3 !! "X-Goog-Upload-Command" = Some "upload, finalize"
    /\ payloadBytes (body r3) = Some 90112
    /\ payloadBytes (body r3) <> Some 89216.
Proof.
  eexists _, _, _, _, _.
  do 8 (split; [reflexivity|]).
  cbn. discriminate.
Qed.

(** C7. A byte source whose slice operation returns null for every range,
    but which can be assembled into a body: [multipartUpload] does not throw
    the cannot-slice-blob error, it builds its request. *)
Lemma multipartUpload_null_slice_counterexample :
  (forall s e, @blob_slice flagBlobApi unsliceable s e = None)
  /\ exists request,
       outcome (multipartUpload (H := flagBlobApi) fixedRandom testService testLocation
                  testMappings unsliceable None)
       = inr request.
Proof.
  split; [intros s e; reflexivity|]. eexists. reflexivity.
Qed.


(** C10. With caller-supplied metadata whose [contentType] is present but
    empty and a blob of type ["image/png"], the upload metadata records
    ["image/png"], not the supplied [contentType]. *)
Lemma upload_metadata_content_type_counterexample :
  md_contentType
    (metadataForUpload_ testLocation (zeros 4 "image/png" true)
       (Some (mkMetadata None None (Some "") ∅)))
  <> Some (contentType_if_present (Some (mkMetadata None None (Some "") ∅))
             (zeros 4 "image/png" true)).
Proof. cbn. discriminate. Qed.

(** ** The further properties on concrete inputs *)

Lemma chunk_upload_advances_witness :
  exists request st,
    continueResumableUpload testLocation testService "https://host/session"
      (zeros 10 "" true) 4 testMappings None None
    = ([SliceCall (zeros 10 "" true) 0 4], inr request)
    /\ handler request activeResponse "" = ([], inr st)
    /\ 0 < current st <= total st
    /\ current st - 0 <= 4.
Proof.
  exists (chunkRequest testLocation testService "https://host/session" (zeros 10 "" true)
            testMappings None 0 4 10 (zerosAt 0 4)),
         (mkStatus 4 10 false None).
  split; [reflexivity|]. split; [reflexivity|].
  destruct (chunk_upload_advances testLocation testService "https://host/session"
              (zeros 10 "" true) 4 testMappings None None
              [SliceCall (zeros 10 "" true) 0 4]
              (chunkRequest testLocation testService "https://host/session"
                 (zeros 10 "" true) testMappings None 0 4 10 (zerosAt 0 4))
              activeResponse "" [] (mkStatus 4 10 false None))
    as (Hadv & _ & Hstep & _).
  - cbn. lia.
  - reflexivity.
  - reflexivity.
  - split; [exact Hadv|]. apply Hstep. lia.
Defined.

Lemma chunk_requests_contiguous_witness :
  exists s e e',
    [SliceCall (zeros 10 "" true) 0 4] = [SliceCall (zeros 10 "" true) s e]
    /\ [SliceCall (zeros 10 "" true) 4 10] = [SliceCall (zeros 10 "" true) e e']
    /\ current (mkStatus 4 10 false None) = e
    /\ headers (chunkRequest testLocation testService "https://host/session"
                  (zeros 10 "" true) testMappings None 4 6 6 (zerosAt 4 6))
       !! "X-Goog-Upload-Offset" = Some (pretty e).
Proof.
  apply (chunk_requests_contiguous testLocation testService "https://host/session"
           (zeros 10 "" true) 4 0 testMappings None None None
           [SliceCall (zeros 10 "" true) 0 4]
           (chunkRequest testLocation testService "https://host/session"
              (zeros 10 "" true) testMappings None 0 4 10 (zerosAt 0 4))
           activeResponse "" [] (mkStatus 4 10 false None)
           [SliceCall (zeros 10 "" true) 4 10]
           (chunkRequest testLocation testService "https://host/session"
              (zeros 10 "" true) testMappings None 4 6 6 (zerosAt 4 6)));
    reflexivity.
Defined.

Lemma chunk_handler_by_status_header_witness :
  (exists st,
     handler (chunkRequest testLocation testService "https://host/session"
                (zeros 10 "" true) testMappings None 0 4 10 (zerosAt 0 4))
       activeResponse "dir/file.bin" = ([], inr st)
     /\ finalized st = false /\ metadata st = None)
  /\ (exists st,
        handler (chunkRequest testLocation testService "https://host/session"
                   (zeros 10 "" true) testMappings None 0 4 10 (zerosAt 0 4))
          finalResponse "dir/file.bin" = ([], inr st)
        /\ finalized st = true
        /\ metadata st = Some (mkMetadata (Some "dir/file.bin") None None ∅))
  /\ handler (chunkRequest testLocation testService "https://host/session"
                (zeros 10 "" true) testMappings None 0 4 10 (zerosAt 0 4))
       finalResponse "" = ([], inl unknown).
Proof.
  split; [|split].
  - apply (chunk_handler_by_status_header testLocation testService "https://host/session"
             (zeros 10 "" true) 4 testMappings None None
             [SliceCall (zeros 10 "" true) 0 4]); reflexivity.
  - apply (proj1 (proj2 (chunk_handler_by_status_header testLocation testService
                           "https://host/session" (zeros 10 "" true) 4 testMappings None None
                           [SliceCall (zeros 10 "" true) 0 4] _ finalResponse "dir/file.bin"
                           eq_refl))); reflexivity.
  - apply (proj2 (proj2 (chunk_handler_by_status_header testLocation testService
                           "https://host/session" (zeros 10 "" true) 4 testMappings None None
                           [SliceCall (zeros 10 "" true) 0 4] _ finalResponse ""
                           eq_refl))); reflexivity.
Defined.

Lemma continueResumableUpload_already_complete_witness :
  exists request,
    continueResumableUpload testLocation testService "https://host/session"
      (zeros 10 "" true) 4 testMappings
      (Some (mkStatus 10 10 true (Some (mkMetadata (Some "dir/file.bin") None None ∅)))) None
    = ([SliceCall (zeros 10 "" true) 10 10], inr request)
    /\ headers request !! "X-Goog-Upload-Command" = Some "upload, finalize"
    /\ headers request !! "X-Goog-Upload-Offset" = Some "10"
    /\ payloadBytes (body request) = Some 0.
Proof.
  apply (continueResumableUpload_already_complete testLocation testService
           "https://host/session" (zeros 10 "" true) 4 testMappings
           (mkStatus 10 10 true (Some (mkMetadata (Some "dir/file.bin") None None ∅))) None
           (zerosAt 10 0)); reflexivity.
Defined.

Lemma continueResumableUpload_offset_beyond_total_witness :
  calls (continueResumableUpload testLocation testService "https://host/session"
           (zeros 10 "" true) 4 testMappings (Some (mkStatus 700 10 false None)) None)
  = [SliceCall (zeros 10 "" true) 700 10]
  /\ headers (chunkRequest testLocation testService "https://host/session"
                (zeros 10 "" true) testMappings None 700 (-690) (-690) (zerosAt 700 0))
     !! "X-Goog-Upload-Command" = Some "upload, finalize".
Proof.
  destruct (continueResumableUpload_offset_beyond_total testLocation testService
              "https://host/session" (zeros 10 "" true) 4 testMappings
              (Some (mkStatus 700 10 false None)) None)
    as (Hcalls & Hreq).
  - reflexivity.
  - unfold MAX_SAFE_INTEGER. cbn. lia.
  - split; [exact Hcalls|].
    apply (Hreq (chunkRequest testLocation testService "https://host/session"
                   (zeros 10 "" true) testMappings None 700 (-690) (-690) (zerosAt 700 0))).
    reflexivity.
Defined.

Lemma start_handler_returns_session_url_witness :
  handler (createResumableUpload testService testLocation testMappings (zeros 10 "" true) None)
    (response 200 ""
       (<[ "X-Goog-Upload-Status" := "active" ]> {[ "X-Goog-Upload-URL" := "" ]})) ""
  = ([], inr "")
  /\ (forall log e,
       handler (createResumableUpload testService testLocation testMappings
                  (zeros 10 "" true) None) activeResponse ""
       = (log, inl e) -> log = [] /\ e = unknown).
Proof.
  split.
  - apply (start_handler_returns_session_url testService testLocation testMappings
             (zeros 10 "" true) None); reflexivity.
  - apply (start_handler_returns_session_url testService testLocation testMappings
             (zeros 10 "" true) None activeResponse "").
Defined.

Lemma query_handler_outcomes_witness :
  handler (getResumableUploadStatus testService testLocation "https://host/session"
             (zeros 10 "" true)) finalResponse ""
  = ([], inr (mkStatus 10 10 true None))
  /\ handler (getResumableUploadStatus testService testLocation "https://host/session"
                (zeros 10 "" true)) activeResponse ""
     = ([], inl unknown).
Proof.
  split.
  - apply (proj1 (proj2 (proj2 (query_handler_outcomes testService testLocation
                                  "https://host/session" (zeros 10 "" true)
                                  finalResponse ""))) "final" "10" 10);
      [reflexivity|right; reflexivity|reflexivity|discriminate|reflexivity].
  - apply (proj1 (proj2 (proj2 (proj2 (query_handler_outcomes testService testLocation
                                         "https://host/session" (zeros 10 "" true)
                                         activeResponse ""))))).
    intros sz Hsz. discriminate Hsz.
Defined.

Lemma object_requests_map_404_witness :
  exists h,
    errorHandler (getMetadata testService testLocation testMappings) = Some h
    /\ h notFoundResponse serverError
       = {| code := OBJECT_NOT_FOUND "dir/file.bin"; serverResponse := Some "try later" |}.
Proof.
  apply (object_requests_map_404 testService testLocation testMappings empty_metadata
           notFoundResponse serverError eq_refl).
Defined.

Lemma object_request_handlers_decode_witness :
  handler (getDownloadUrl testService testLocation testMappings) notFoundResponse ""
  = ([], inl unknown)
  /\ handler (getDownloadUrl testService testLocation testMappings)
       (response 200 "dir/file.bin" ∅) "dir/file.bin"
     = ([], inr (Some
          "https://firebasestorage.googleapis.com/v0/o/dir/file.bin?alt=media")).
Proof.
  destruct (object_request_handlers_decode testService testLocation testMappings
              empty_metadata notFoundResponse "") as (Hbad & _).
  destruct (object_request_handlers_decode testService testLocation testMappings
              empty_metadata (response 200 "dir/file.bin" ∅) "dir/file.bin") as (_ & Hok & _).
  split.
  - apply Hbad. reflexivity.
  - apply (Hok (mkMetadata (Some "dir/file.bin") None None ∅)). reflexivity.
Defined.

Lemma upload_requests_keep_404_witness :
  sharedErrorHandler testLocation notFoundResponse serverError = serverError
  /\ errorHandler (createResumableUpload testService testLocation testMappings
                     (zeros 10 "" true) None)
     = Some (sharedErrorHandler testLocation).
Proof.
  destruct (upload_requests_keep_404 fixedRandom testService testLocation testMappings
              "https://host/session" (zeros 10 "" true) 4 None None None
              notFoundResponse serverError eq_refl)
    as (Hkeep & (_ & _ & Hstart) & _).
  split; [exact Hkeep|exact Hstart].
Defined.

Lemma content_type_never_empty_witness :
  determineContentType_ (Some (mkMetadata None None (Some "") ∅)) (Some (zeros 4 "" true))
  <> ""
  /\ exists c,
       md_contentType (metadataForUpload_ testLocation (zeros 4 "" true)
                         (Some (mkMetadata None None (Some "") ∅))) = Some c
       /\ c <> "".
Proof.
  apply (content_type_never_empty testLocation (zeros 4 "" true)
           (Some (mkMetadata None None (Some "") ∅)) (Some (zeros 4 "" true))).
Defined.


Lemma list_urlParams_sent_witness :
  list_urlParams false testLocation (Some "") None (Some 0) !! "prefix"
  = Some (ParamString "dir/file.bin/")
  /\ list_urlParams false testLocation (Some "") None (Some 0) !! "delimiter" = None
  /\ list_urlParams false testLocation (Some "") None (Some 0) !! "maxResults" = None
  /\ list_urlParams false testLocation (Some "") None (Some 0) !! "name" = None.
Proof.
  destruct (list_urlParams_sent false testLocation (Some "") None (Some 0))
    as (Hprefix & Hdelim & _ & Hmax & Hrest).
  split; [exact Hprefix|]. split; [exact Hdelim|]. split; [exact Hmax|].
  apply Hrest; discriminate.
Defined.

Lemma continueResumableUpload_outcomes_witness :
  continueResumableUpload testLocation testService "https://host/session"
    (zeros 900 "" true) 4 testMappings (Some (mkStatus 0 1000 false None)) None
  = ([], inl serverFileWrongSize).
Proof.
  destruct (continueResumableUpload_outcomes testLocation testService "https://host/session"
              (zeros 900 "" true) 4 testMappings (Some (mkStatus 0 1000 false None)) None)
    as [[_ Hwrong]|[Heq _]].
  - exact Hwrong.
  - cbn in Heq. discriminate Heq.
Defined.
